(** * Valentines-Week: the greeting API and the page loader

    A shallow embedding of [api/create.js], [api/get.js], the table of
    [supabase-setup.sql] and the control flow of [js/dynamic-loader.js],
    followed by the properties of the greeting contract.

    Conventions.
    - A JavaScript string is the list of its UTF-16 code units, so that
      [length] is the [.length] of the source.
    - A handler is a computation over the [World]: the rows of the
      [greetings] table and the trace of the queries sent to it.  An
      exception raised inside the handler's [try] block is a [Throw]
      completion, which the [catch] clause turns into the 500 response.
    - The random bytes drawn by [nanoid] and the clock read by the
      table's [DEFAULT now()] are inputs of the request ([Ambient]). *)

From Stdlib Require Import ZArith NArith List String Ascii Bool Lia ZifyBool DecimalString DecimalPos.
From stdpp Require Import base option list gmap.

Local Open Scope Z_scope.

(** ** JavaScript values *)

Module Js.

(** A string is its sequence of UTF-16 code units. *)
Definition jsstring : Type := list N.

(** A literal of the source text, as code units. *)
Definition lit (s : string) : jsstring :=
  List.map N_of_ascii (list_ascii_of_string s).

(** WhiteSpace and LineTerminator code points of ECMAScript: what
    [String.prototype.trim] strips and [parseInt] skips. *)
Definition is_white_space (c : N) : bool :=
  ((9 <=? c) && (c <=? 13) || (c =? 32) || (c =? 160) || (c =? 5760)
   || (8192 <=? c) && (c <=? 8202) || (c =? 8232) || (c =? 8233)
   || (c =? 8239) || (c =? 8287) || (c =? 12288) || (c =? 65279))%N.

Fixpoint trimStart (s : jsstring) : jsstring :=
  match s with
  | [] => []
  | c :: r => if is_white_space c then trimStart r else s
  end.

Definition trimEnd (s : jsstring) : jsstring := rev (trimStart (rev s)).

Definition trim (s : jsstring) : jsstring := trimEnd (trimStart s).

(** The values a parsed JSON body can hold in one of its fields, and
    [undefined], which is what reading an absent property gives.
    Numbers are the integer-valued ones; a field that is itself an
    object is outside the model. *)
#[warnings="-register-all"]
Inductive JsValue : Type :=
| JUndefined
| JNull
| JBool (b : bool)
| JNum (n : Z)
| JStr (s : jsstring)
| JArr (l : list JsValue).

(** ToBoolean: what [!v], [v && ...], [v || ...] and [v ? a : b] test. *)
Definition truthy (v : JsValue) : bool :=
  match v with
  | JUndefined | JNull => false
  | JBool b => b
  | JNum n => negb (n =? 0)
  | JStr s => match s with [] => false | _ :: _ => true end
  | JArr _ => true
  end.

(** A JavaScript object with string keys, as parsed from JSON. *)
Definition JsObject : Type := list (jsstring * JsValue).

Fixpoint own (o : JsObject) (k : jsstring) : JsValue :=
  match o with
  | [] => JUndefined
  | (k', v) :: r => if decide (k' = k) then v else own r k
  end.

(** Normal and abrupt completions of an expression. *)
Inductive Completion (A : Type) : Type :=
| Normal (a : A)
| Throw (reason : string).
Arguments Normal {A} a.
Arguments Throw {A} reason.

(** [v.length]: the code-unit count of a string, the element count of
    an array, [undefined] on the other primitives. *)
Definition length_of (v : JsValue) : JsValue :=
  match v with
  | JStr s => JNum (Z.of_nat (length s))
  | JArr l => JNum (Z.of_nat (length l))
  | _ => JUndefined
  end.

(** [v > bound] for [v] the result of [length_of]: a number compares
    as such, [undefined] converts to NaN and compares false. *)
Definition greater_than (v : JsValue) (bound : Z) : bool :=
  match v with
  | JNum n => bound <? n
  | _ => false
  end.

(** [v.trim()]: only strings have the method; on any other value the
    property is not a function and the call raises a TypeError. *)
Definition call_trim (v : JsValue) : Completion jsstring :=
  match v with
  | JStr s => Normal (trim s)
  | _ => Throw "TypeError: trim is not a function"
  end.

(** Number to String for an integer value, every digit written: the
    text of the language for values below 2^53 in absolute value. *)
Definition string_of_Z (n : Z) : jsstring :=
  lit (NilZero.string_of_int (Z.to_int n)).

(** ToString.  Array elements are joined with a comma, [null] and
    [undefined] elements giving the empty string. *)
Fixpoint to_string (v : JsValue) : jsstring :=
  match v with
  | JUndefined => lit "undefined"
  | JNull => lit "null"
  | JBool true => lit "true"
  | JBool false => lit "false"
  | JNum n => string_of_Z n
  | JStr s => s
  | JArr l =>
      (fix join (l : list JsValue) : jsstring :=
         match l with
         | [] => []
         | x :: r =>
             let e := match x with
                      | JUndefined | JNull => []
                      | _ => to_string x
                      end in
             match r with
             | [] => e
             | _ :: _ => e ++ lit "," ++ join r
             end
         end) l
  end.

(** The value of a digit in the given radix, if it is one. *)
Definition digit_value (radix : Z) (c : N) : option Z :=
  let v :=
    if ((48 <=? c) && (c <=? 57))%N then Some (Z.of_N c - 48)
    else if ((97 <=? c) && (c <=? 122))%N then Some (Z.of_N c - 87)
    else if ((65 <=? c) && (c <=? 90))%N then Some (Z.of_N c - 55)
    else None in
  match v with
  | Some d => if d <? radix then Some d else None
  | None => None
  end.

(** The longest prefix of digits, read as a number; [None] when the
    prefix is empty. *)
Fixpoint parse_digits (radix : Z) (s : jsstring) (acc : option Z) : option Z :=
  match s with
  | [] => acc
  | c :: r =>
      match digit_value radix c with
      | Some d =>
          parse_digits radix r
            (Some (match acc with Some a => a * radix + d | None => d end))
      | None => acc
      end
  end.

(** [parseInt(v)] with no radix argument; [None] is NaN.  The result
    is kept as the mathematical integer (no rounding to a double): it is
    the result of the language for values below 2^53 in absolute
    value, the range the properties below assume wherever they name a
    parsed number. *)
Definition parseInt (v : JsValue) : option Z :=
  let s := trimStart (to_string v) in
  let '(sign, s) :=
    match s with
    | 45%N :: r => (-1, r)
    | 43%N :: r => (1, r)
    | _ => (1, s)
    end in
  let '(radix, s) :=
    match s with
    | 48%N :: 120%N :: r => (16, r)
    | 48%N :: 88%N :: r => (16, r)
    | _ => (10, s)
    end in
  match parse_digits radix s None with
  | Some n => Some (sign * n)
  | None => None
  end.

End Js.

Import Js.

(** ** nanoid

    The identifier generator of the [nanoid] package: one character of
    the URL alphabet per random byte, selected by the byte's low six
    bits. *)

Module Nanoid.

Definition urlAlphabet : jsstring :=
  lit "useandom-26T198340PX75pxJACKVERYMINDBUSHWOLF_GQZbfghjklqvwyzrict".

Definition nanoid (pool : nat -> N) (size : nat) : jsstring :=
  List.map (fun i => nth (N.to_nat (N.land (pool i) 63)) urlAlphabet 0%N)
    (seq 0 size).

End Nanoid.

(** ** The greetings table

    [supabase-setup.sql]: [id TEXT PRIMARY KEY], three [TEXT NOT NULL]
    columns with a [CHECK] on [char_length], and [created_at] filled by
    [DEFAULT now()]. *)

Module Store.

Definition Timestamp : Type := Z.

(** Modelled from the spec: the [day_index] column of the table.  Both
    handlers use it and the setup script does not declare it; the spec
    lists the day index among the optional display fields, so the column
    is a nullable integer without a constraint ([None] is NULL). *)
Definition day_index_column : Type := option Z.

Record Row : Type := mkRow {
  row_id : jsstring;
  row_sender : jsstring;
  row_receiver : jsstring;
  row_message : jsstring;
  row_day_index : day_index_column;
  row_created_at : Timestamp
}.

(** The object handed to [.insert(...)].  A NaN [day_index] is written
    as [null] by the JSON serialisation of the request, hence the
    [option]. *)
Record NewGreeting : Type := mkNewGreeting {
  ng_id : jsstring;
  ng_sender : jsstring;
  ng_receiver : jsstring;
  ng_message : jsstring;
  ng_day_index : option Z
}.

(** The queries the handlers send, in the order they are sent. *)
Inductive Query : Type :=
| QInsert (g : NewGreeting)
| QSelectSingle (id : jsstring).

Record World : Type := mkWorld {
  table : gmap jsstring Row;
  queries : list Query
}.

Record DbError : Type := mkDbError { code : string }.

(** [char_length] of PostgreSQL counts characters; a surrogate pair of
    the JavaScript string is one character. *)
Definition is_high_surrogate (c : N) : bool := ((55296 <=? c) && (c <=? 56319))%N.
Definition is_low_surrogate (c : N) : bool := ((56320 <=? c) && (c <=? 57343))%N.

Fixpoint char_length (s : jsstring) : nat :=
  match s with
  | [] => O
  | c :: r =>
      match r with
      | d :: r' =>
          if is_high_surrogate c && is_low_surrogate d
          then S (char_length r')
          else S (char_length r)
      | [] => 1%nat
      end
  end.

Definition check_constraints (g : NewGreeting) : bool :=
  (char_length (ng_sender g) <=? 100)%nat
  && (char_length (ng_receiver g) <=? 100)%nat
  && (char_length (ng_message g) <=? 500)%nat.

(** The row the table keeps for an inserted greeting. *)
Definition row_of (now : Timestamp) (g : NewGreeting) : Row :=
  mkRow (ng_id g) (ng_sender g) (ng_receiver g) (ng_message g)
    (ng_day_index g) now.

(** [supabase.from('greetings').insert(g)]: the result's [error].  A
    failed [CHECK] is reported before the primary key is consulted. *)
Definition insert (now : Timestamp) (g : NewGreeting) (w : World)
  : option DbError * World :=
  let sent := mkWorld (table w) (queries w ++ [QInsert g]) in
  if negb (check_constraints g) then (Some (mkDbError "23514"), sent)
  else
    match table w !! ng_id g with
    | Some _ => (Some (mkDbError "23505"), sent)
    | None =>
        (None, mkWorld (<[ng_id g := row_of now g]> (table w)) (queries sent))
    end.

(** The columns named by [.select('sender, receiver, message,
    day_index, created_at')]. *)
Record Selected : Type := mkSelected {
  sender : jsstring;
  receiver : jsstring;
  message : jsstring;
  day_index : day_index_column;
  created_at : Timestamp
}.

Definition project (r : Row) : Selected :=
  mkSelected (row_sender r) (row_receiver r) (row_message r)
    (row_day_index r) (row_created_at r).

Record SelectResult : Type := mkSelectResult {
  data : option Selected;
  error : option DbError
}.

(** [.select(...).eq('id', id).single()]: exactly one row, or the
    PGRST116 error. *)
Definition select_single (id : jsstring) (w : World) : SelectResult * World :=
  let sent := mkWorld (table w) (queries w ++ [QSelectSingle id]) in
  match table w !! id with
  | Some r => (mkSelectResult (Some (project r)) None, sent)
  | None => (mkSelectResult None (Some (mkDbError "PGRST116")), sent)
  end.

End Store.

Import Store.

(** ** Requests and responses *)

Module Http.

Record Request : Type := mkRequest {
  method : string;
  (** [req.body]: the parsed JSON object, [None] when there is none. *)
  body : option JsObject;
  (** [req.query.id]: [undefined], a string, or an array of strings when
      the parameter is repeated. *)
  query_id : JsValue;
  (** [req.headers['x-forwarded-proto']] and [req.headers.host]. *)
  x_forwarded_proto : option jsstring;
  host : option jsstring
}.

(** What the handlers pass to [res.json]. *)
Inductive Payload : Type :=
| ErrorOnly (error : string)
| ErrorMessage (error message : string)
| Created (id url : jsstring)
| Greeting (data : Selected).

Record Response : Type := mkResponse {
  status : Z;
  cache_control : option string;
  payload : Payload
}.

(** [res.status(s).json(p)] *)
Definition respond (s : Z) (p : Payload) : Response := mkResponse s None p.

(** What a request draws from outside the handler: the random pool of
    [nanoid] and the clock of the table. *)
Record Ambient : Type := mkAmbient {
  pool : nat -> N;
  now : Timestamp
}.

(** Computations of a handler: state over the [World], with
    exceptions. *)
Definition Handler (A : Type) : Type := World -> Completion A * World.

Definition ret {A} (a : A) : Handler A := fun w => (Normal a, w).

Definition bind {A B} (c : Handler A) (k : A -> Handler B) : Handler B :=
  fun w =>
    match c w with
    | (Normal a, w') => k a w'
    | (Throw e, w') => (Throw e, w')
    end.

(** An expression evaluated inside the handler. *)
Definition eval {A} (c : Completion A) : Handler A := fun w => (c, w).

(** [await] of a store call, which resolves and never rejects. *)
Definition await {A} (q : World -> A * World) : Handler A :=
  fun w => let '(a, w') := q w in (Normal a, w').

(** [try { c } catch (error) { h }] *)
Definition try_catch {A} (c : Handler A) (h : string -> A) : World -> A * World :=
  fun w =>
    match c w with
    | (Normal a, w') => (a, w')
    | (Throw e, w') => (h e, w')
    end.

End Http.

Import Http.

Declare Scope handler_scope.
Delimit Scope handler_scope with handler.
Notation "'let*' x ':=' c 'in' k" := (bind c (fun x => k))
  (at level 10, x name, c at level 100, k at level 200)
  : handler_scope.

(** ** POST /api/create *)

Module Create.

Definition MAX_NAME_LENGTH : Z := 100.
Definition MAX_MESSAGE_LENGTH : Z := 500.
Definition ID_LENGTH : nat := 8.

(** [const { sender, receiver, message } = req.body]: destructuring
    [undefined] raises a TypeError. *)
Definition destructure (b : option JsObject) : Completion JsObject :=
  match b with
  | Some o => Normal o
  | None => Throw "TypeError: Cannot destructure property 'sender' of 'req.body'"
  end.

(** [message ? message.trim() : ''] *)
Definition message_or_empty (message : JsValue) : Completion jsstring :=
  if truthy message then call_trim message else Normal [].

(** [(typeof v !== 'undefined') ? parseInt(v) : 0] *)
Definition day_index_or_zero (v : JsValue) : option Z :=
  match v with
  | JUndefined => Some 0
  | _ => parseInt v
  end.

(** [req.headers['x-forwarded-proto'] || 'https'] *)
Definition protocol_of (req : Request) : jsstring :=
  match x_forwarded_proto req with
  | Some (c :: p) => c :: p
  | _ => lit "https"
  end.

(** [`${protocol}://${host}/?id=${id}`] *)
Definition share_url (req : Request) (id : jsstring) : jsstring :=
  protocol_of req ++ lit "://"
  ++ match host req with Some h => h | None => lit "undefined" end
  ++ lit "/?id=" ++ id.

(** The body of the [try] block. *)
Definition try_block (amb : Ambient) (req : Request) : Handler Response :=
  (let* o := eval (destructure (body req)) in
   let sender := own o (lit "sender") in
   let receiver := own o (lit "receiver") in
   let message := own o (lit "message") in
   if negb (truthy sender) || negb (truthy receiver) then
     ret (respond 400 (ErrorMessage "Missing required fields"
                         "Both sender and receiver names are required"))
   else if greater_than (length_of sender) MAX_NAME_LENGTH then
     ret (respond 400 (ErrorMessage "Validation error"
                         "Sender name must be 100 characters or less"))
   else if greater_than (length_of receiver) MAX_NAME_LENGTH then
     ret (respond 400 (ErrorMessage "Validation error"
                         "Receiver name must be 100 characters or less"))
   else if truthy message
           && greater_than (length_of message) MAX_MESSAGE_LENGTH then
     ret (respond 400 (ErrorMessage "Validation error"
                         "Message must be 500 characters or less"))
   else
     let id := Nanoid.nanoid (pool amb) ID_LENGTH in
     let* s := eval (call_trim sender) in
     let* r := eval (call_trim receiver) in
     let* m := eval (message_or_empty message) in
     let d := day_index_or_zero (own o (lit "day_index")) in
     let* dbError := await (insert (now amb) (mkNewGreeting id s r m d)) in
     match dbError with
     | Some _ =>
         ret (respond 500 (ErrorMessage "Database error" "Failed to save greeting"))
     | None => ret (respond 201 (Created id (share_url req id)))
     end)%handler.

Definition handler (amb : Ambient) (req : Request) : World -> Response * World :=
  if negb (String.eqb (method req) "POST") then
    fun w => (respond 405 (ErrorOnly "Method not allowed"), w)
  else
    try_catch (try_block amb req)
      (fun _ => respond 500 (ErrorMessage "Server error" "An unexpected error occurred")).

End Create.

(** ** GET /api/get *)

Module Get.

(** One character of the class [[a-zA-Z0-9_-]]. *)
Definition id_char (c : N) : bool :=
  ((97 <=? c) && (c <=? 122) || (65 <=? c) && (c <=? 90)
   || (48 <=? c) && (c <=? 57) || (c =? 95) || (c =? 45))%N.

(** [/^[a-zA-Z0-9_-]+$/.test(id)]: the argument is converted to a
    string, which must be non-empty and made of the class. *)
Definition id_regex_test (id : JsValue) : bool :=
  match to_string id with
  | [] => false
  | c :: s => forallb id_char (c :: s)
  end.

Definition try_block (req : Request) : Handler Response :=
  (let id := query_id req in
   if negb (truthy id) then
     ret (respond 400 (ErrorMessage "Missing ID" "Greeting ID is required"))
   else if negb (id_regex_test id) then
     ret (respond 400 (ErrorMessage "Invalid ID"
                         "Greeting ID contains invalid characters"))
   else
     let* res := await (select_single (to_string id)) in
     match error res with
     | Some dbError =>
         if String.eqb (code dbError) "PGRST116" then
           ret (respond 404 (ErrorMessage "Not found" "Greeting not found"))
         else
           ret (respond 500 (ErrorMessage "Database error" "Failed to fetch greeting"))
     | None =>
         match data res with
         | None => ret (respond 404 (ErrorMessage "Not found" "Greeting not found"))
         | Some d =>
             ret (mkResponse 200 (Some "s-maxage=3600, stale-while-revalidate"%string)
                    (Greeting d))
         end
     end)%handler.

Definition handler (req : Request) : World -> Response * World :=
  if negb (String.eqb (method req) "GET") then
    fun w => (respond 405 (ErrorOnly "Method not allowed"), w)
  else
    try_catch (try_block req)
      (fun _ => respond 500 (ErrorMessage "Server error" "An unexpected error occurred")).

End Get.

(** ** The page loader, [js/dynamic-loader.js]

    The document is the flat list of the elements the loader addresses,
    each with the identifier and the attribute or class names its
    selectors test.  Calls into the page's other script and [alert] are
    recorded in the page's trace. *)

Module Loader.

Inductive Inner : Type :=
| TextContent (t : jsstring)
| InnerHTML (h : jsstring).

Record Element : Type := mkElement {
  el_id : string;
  el_marks : list string;
  el_display : jsstring;
  el_inner : Inner;
  el_content : jsstring
}.

(** The only callback the loader schedules. *)
Inductive Callback : Type :=
| ShowCreateForm.

(** The global [config] of the page's other script. *)
Record Config : Type := mkConfig {
  recipientName : JsValue;
  senderName : JsValue;
  (** whether [config.days[key]] is truthy *)
  has_day : jsstring -> bool
}.

(** [alert] (with the first line of its message) and the call of
    [populateDayContent(config.days[key])]. *)
Inductive Effect : Type :=
| Alert (msg : string)
| PopulateDayContent (key : jsstring).

Record Page : Type := mkPage {
  elements : list Element;
  title : jsstring;
  modal_open : bool;
  config : option Config;
  populateDayContent_defined : bool;
  timers : list (Z * Callback);
  trace : list Effect
}.

Record Location : Type := mkLocation {
  protocol : jsstring;
  (** the pairs of [window.location.search], decoded *)
  search : list (jsstring * jsstring)
}.

(** The outcome of [fetch] followed by [response.json()]; [json] is
    [None] when the body does not parse. *)
Inductive FetchOutcome : Type :=
| NetworkError
| HttpResponse (status : Z) (json : option JsObject).

Definition with_elements (p : Page) (els : list Element) : Page :=
  mkPage els (title p) (modal_open p) (config p)
    (populateDayContent_defined p) (timers p) (trace p).

Definition set_display (d : jsstring) (e : Element) : Element :=
  mkElement (el_id e) (el_marks e) d (el_inner e) (el_content e).

Definition set_inner (i : Inner) (e : Element) : Element :=
  mkElement (el_id e) (el_marks e) (el_display e) i (el_content e).

Definition set_content (c : jsstring) (e : Element) : Element :=
  mkElement (el_id e) (el_marks e) (el_display e) (el_inner e) c.

(** [document.getElementById(id)] *)
Definition getElementById (id : string) (p : Page) : option Element :=
  List.find (fun e => String.eqb (el_id e) id) (elements p).

(** An assignment through the element found by a first-match query. *)
Fixpoint update_first (test : Element -> bool) (f : Element -> Element)
  (els : list Element) : list Element :=
  match els with
  | [] => []
  | e :: r => if test e then f e :: r else e :: update_first test f r
  end.

(** A selector is the list of the names it accepts. *)
Definition selects (sel : list string) (e : Element) : bool :=
  existsb (fun m => existsb (String.eqb m) (el_marks e)) sel.

Definition SEL_receiver : list string := ["data-receiver"%string].
Definition SEL_sender : list string := ["data-sender"%string].
Definition SEL_subtitle : list string := ["greeting-sub"; "data-subtitle"]%string.
Definition SEL_quote : list string := ["data-quote"%string].
Definition SEL_message : list string := ["data-message"%string].

(** [new URLSearchParams(window.location.search).get(name)] *)
Fixpoint getUrlParam (name : jsstring) (q : list (jsstring * jsstring))
  : option jsstring :=
  match q with
  | [] => None
  | (k, v) :: r => if decide (k = name) then Some v else getUrlParam name r
  end.

(** [el.textContent = v]: [null] and [undefined] give the empty text. *)
Definition text_of (v : JsValue) : jsstring :=
  match v with
  | JUndefined | JNull => []
  | _ => to_string v
  end.

Definition safeSetText (sel : list string) (text : JsValue) (p : Page) : Page :=
  with_elements p
    (List.map (fun e => if selects sel e then set_inner (TextContent (text_of text)) e
                        else e) (elements p)).

Definition set_text_by_id (id : string) (t : jsstring) (p : Page) : Page :=
  with_elements p
    (update_first (fun e => String.eqb (el_id e) id) (set_inner (TextContent t))
       (elements p)).

(** The serialisation of a text node: what [escapeHtml] returns. *)
Definition escapeHtml (text : JsValue) : jsstring :=
  flat_map (fun c : N =>
              if (c =? 38)%N then lit "&amp;"
              else if (c =? 60)%N then lit "&lt;"
              else if (c =? 62)%N then lit "&gt;"
              else if (c =? 160)%N then lit "&nbsp;"
              else [c]) (text_of text).

Fixpoint memory_lines (index : Z) (memories : list JsValue) : jsstring :=
  match memories with
  | [] => []
  | text :: r =>
      lit "<p class=" ++ [34%N] ++ lit "idea idea-" ++ string_of_Z (index + 1)
      ++ [34%N; 62%N]
      ++ escapeHtml text ++ lit "</p>" ++ memory_lines (index + 1) r
  end.

Definition populateMemories (memories : JsValue) (p : Page) : Page :=
  match memories with
  | JArr (m :: ms) =>
      match getElementById "stage4" p with
      | None => p
      | Some _ =>
          with_elements p
            (update_first (fun e => String.eqb (el_id e) "stage4")
               (set_inner (InnerHTML (memory_lines 0 (m :: ms)))) (elements p))
      end
  | _ => p
  end.

(** The characters the source file holds after the receiver in the
    title, and before it in the recipient card, as the file has them:
    U+00F0 U+0178 U+2019 U+2022, and U+00E2 U+20AC U+201D. *)
Definition title_tail : jsstring := [240%N; 376%N; 8217%N; 8226%N].
Definition card_lead : jsstring := [226%N; 8364%N; 8221%N].

Definition updateMetaTags (data : JsObject) (p : Page) : Page :=
  let title := lit "A Valentine's Message for "
               ++ to_string (own data (lit "receiver")) ++ [32%N] ++ title_tail in
  let description := to_string (own data (lit "sender"))
                     ++ lit " has a special message for you..." in
  let els :=
    update_first (selects ["og:description"%string]) (set_content description)
      (update_first (selects ["og:title"%string]) (set_content title)
         (elements p)) in
  mkPage els title (modal_open p) (config p) (populateDayContent_defined p)
    (timers p) (trace p).

(** [if (v) step(v)] *)
Definition when_truthy (v : JsValue) (step : JsValue -> Page -> Page) (p : Page)
  : Page :=
  if truthy v then step v p else p.

Definition populateGreeting (data : JsObject) (p : Page) : Page :=
  let receiver := own data (lit "receiver") in
  let sender := own data (lit "sender") in
  let p := when_truthy receiver
             (fun v p =>
                set_text_by_id "recipientName" (card_lead ++ [32%N] ++ to_string v)
                  (safeSetText SEL_receiver v p)) p in
  let p := when_truthy sender (safeSetText SEL_sender) p in
  let p := when_truthy (own data (lit "subtitle")) (safeSetText SEL_subtitle) p in
  let p := when_truthy (own data (lit "quote")) (safeSetText SEL_quote) p in
  let p := when_truthy (own data (lit "day_message")) (safeSetText SEL_message) p in
  let p := when_truthy (own data (lit "memories")) populateMemories p in
  let p := when_truthy receiver
             (fun v p => set_text_by_id "csName" (text_of v) p) p in
  let p := updateMetaTags data p in
  match config p with
  | None => p
  | Some c =>
      mkPage (elements p) (title p) (modal_open p)
        (Some (mkConfig receiver sender (has_day c)))
        (populateDayContent_defined p) (timers p) (trace p)
  end.

(** The [try] block of [fetchGreeting]: a 404 returns [null], any other
    status outside 2xx throws, and so do a failed [fetch] and a body
    that does not parse. *)
Definition fetch_try (outcome : FetchOutcome) : Completion (option JsObject) :=
  match outcome with
  | NetworkError => Throw "TypeError: Failed to fetch"
  | HttpResponse status json =>
      if negb ((200 <=? status) && (status <=? 299)) then
        if status =? 404 then Normal None else Throw "Error: API error"
      else
        match json with
        | Some data => Normal (Some data)
        | None => Throw "SyntaxError: Unexpected token"
        end
  end.

(** [fetchGreeting]: the [catch] clause returns [null]. *)
Definition fetchGreeting (outcome : FetchOutcome) : option JsObject :=
  match fetch_try outcome with
  | Normal data => data
  | Throw _ => None
  end.

Definition set_form (display : string) (modal : bool) (p : Page) : Page :=
  match getElementById "createForm" p with
  | None => p
  | Some _ =>
      mkPage
        (update_first (fun e => String.eqb (el_id e) "createForm")
           (set_display (lit display)) (elements p))
        (title p) modal (config p) (populateDayContent_defined p)
        (timers p) (trace p)
  end.

Definition showCreateForm (p : Page) : Page := set_form "flex" true p.

Definition hideCreateForm (p : Page) : Page := set_form "none" false p.

Definition setTimeout (cb : Callback) (delay : Z) (p : Page) : Page :=
  mkPage (elements p) (title p) (modal_open p) (config p)
    (populateDayContent_defined p) (timers p ++ [(delay, cb)]) (trace p).

Definition record (e : Effect) (p : Page) : Page :=
  mkPage (elements p) (title p) (modal_open p) (config p)
    (populateDayContent_defined p) (timers p) (trace p ++ [e]).

(** The day theme switch at the end of the shared-greeting branch. *)
Definition switch_day (data : JsObject) (p : Page) : Page :=
  match own data (lit "day_index"), config p with
  | JUndefined, _ => p
  | _, None => p
  | key, Some c =>
      if has_day c (to_string key) && populateDayContent_defined p
      then record (PopulateDayContent (to_string key)) p
      else p
  end.

Definition init (loc : Location) (outcome : FetchOutcome) (p : Page) : Page :=
  if decide (protocol loc = lit "file:") then
    record (Alert "IMPORTANT: You are opening this file directly.") p
  else
    match getUrlParam (lit "id") (search loc) with
    | Some (c :: id) =>
        let p := hideCreateForm p in
        match fetchGreeting outcome with
        | Some data => switch_day data (populateGreeting data p)
        | None => p
        end
    | _ => setTimeout ShowCreateForm 100 p
    end.

Definition run (cb : Callback) (p : Page) : Page :=
  match cb with
  | ShowCreateForm => showCreateForm p
  end.

(** The event loop, once every pending delay has elapsed. *)
Definition run_timers (p : Page) : Page :=
  fold_left (fun p t => run (snd t) p) (timers p)
    (mkPage (elements p) (title p) (modal_open p) (config p)
       (populateDayContent_defined p) [] (trace p)).

(** The creation form is on display. *)
Definition form_shown (p : Page) : bool :=
  match getElementById "createForm" p with
  | Some e => bool_decide (el_display e = lit "flex")
  | None => false
  end.

End Loader.

(** ** The vocabulary of the contract *)

Module Contract.

(** A name that passes the boundary: a non-empty string of at most 100
    code units. *)
Definition valid_name (v : JsValue) : bool :=
  match v with
  | JStr (c :: s) => Z.of_nat (length (c :: s)) <=? Create.MAX_NAME_LENGTH
  | _ => false
  end.

(** A message that passes the boundary: absent, or a string of at most
    500 code units. *)
Definition valid_message (v : JsValue) : bool :=
  match v with
  | JUndefined => true
  | JStr m => Z.of_nat (length m) <=? Create.MAX_MESSAGE_LENGTH
  | _ => false
  end.

(** What the create operation stores for a supplied field. *)
Definition stored_text (v : JsValue) : jsstring :=
  match v with
  | JStr s => trim s
  | _ => []
  end.

(** A first and a last code unit that [trim] would keep. *)
Definition starts_clean (s : jsstring) : bool :=
  match s with
  | [] => true
  | c :: _ => negb (is_white_space c)
  end.

Definition no_outer_space (s : jsstring) : bool :=
  starts_clean s && starts_clean (rev s).

(** The character set the specification names for identifiers:
    alphanumeric or dash. *)
Definition alphanumeric_or_dash (c : N) : bool :=
  ((97 <=? c) && (c <=? 122) || (65 <=? c) && (c <=? 90)
   || (48 <=? c) && (c <=? 57) || (c =? 45))%N.

(** The fetch of the greeting fails: a network error, or a status
    outside 2xx (not found, or any other API error). *)
Definition fetch_fails (outcome : Loader.FetchOutcome) : bool :=
  match outcome with
  | Loader.NetworkError => true
  | Loader.HttpResponse status _ => negb ((200 <=? status) && (status <=? 299))
  end.

(** The identifier the create handler draws for this request. *)
Definition drawn_id (amb : Ambient) : jsstring :=
  Nanoid.nanoid (pool amb) Create.ID_LENGTH.

(** The greeting the create handler submits for a body that passes the
    boundary. *)
Definition submitted (amb : Ambient) (o : JsObject) : NewGreeting :=
  mkNewGreeting (drawn_id amb)
    (stored_text (own o (lit "sender")))
    (stored_text (own o (lit "receiver")))
    (stored_text (own o (lit "message")))
    (Create.day_index_or_zero (own o (lit "day_index"))).

(** A handler call preserves the rows it finds. *)
Definition keeps_rows (w w' : World) : Prop :=
  forall id row, table w !! id = Some row -> table w' !! id = Some row.

(** Any number of requests to the two endpoints, in any order. *)
Inductive serves : World -> World -> Prop :=
| serves_none w : serves w w
| serves_create amb req w w' :
    serves w w' -> serves w (snd (Create.handler amb req w'))
| serves_get req w w' :
    serves w w' -> serves w (snd (Get.handler req w')).

End Contract.

Import Contract.

(** ** Sample requests *)

Module Sample.

Definition empty_world : World := mkWorld ∅ [].

Definition ambient (seed : N) : Ambient :=
  mkAmbient (fun i => (seed + N.of_nat i)%N) 1700000000.

Definition post (fields : JsObject) : Request :=
  mkRequest "POST" (Some fields) JUndefined None (Some (lit "example.org")).

Definition get (id : JsValue) : Request :=
  mkRequest "GET" None id None (Some (lit "example.org")).

Definition names (s r : string) : JsObject :=
  [(lit "sender", JStr (lit s)); (lit "receiver", JStr (lit r))].

Definition with_field (k : string) (v : JsValue) (o : JsObject) : JsObject :=
  o ++ [(lit k, v)].

(** The world after one request has been served. *)
Definition after_create (amb : Ambient) (req : Request) (w : World) : World :=
  snd (Create.handler amb req w).

Definition form_element : Loader.Element :=
  Loader.mkElement "createForm" [] [] (Loader.TextContent []) [].

Definition page : Loader.Page :=
  Loader.mkPage [form_element] (lit "Valentine") false None false [] [].

Definition location (query : list (jsstring * jsstring)) : Loader.Location :=
  Loader.mkLocation (lit "https:") query.

End Sample.

(** ** More of the language: what the demo server and the form use *)

Module Builtins.

(** [a || b] *)
Definition or_else (a b : JsValue) : JsValue := if truthy a then a else b.

(** [parseInt(v, 10)]: as [parseInt], without the hexadecimal prefix,
    and with the same range. *)
Definition parseInt10 (v : JsValue) : option Z :=
  let s := trimStart (to_string v) in
  let '(sign, s) :=
    match s with
    | 45%N :: r => (-1, r)
    | 43%N :: r => (1, r)
    | _ => (1, s)
    end in
  match parse_digits 10 s None with
  | Some n => Some (sign * n)
  | None => None
  end.

(** [s.split(sep)] for a separator of one code unit. *)
Fixpoint split (sep : N) (s : jsstring) : list jsstring :=
  match s with
  | [] => [[]]
  | c :: r =>
      if (c =? sep)%N then [] :: split sep r
      else
        match split sep r with
        | [] => [[c]]
        | l :: ls => (c :: l) :: ls
        end
  end.

End Builtins.

Import Builtins.

(** ** The demo server, [local-demo-server.js]

    The two route callbacks over the in-memory [Map].  A request is one
    that reached the callback with a parsed JSON body. *)

Module Demo.

Record Greeting : Type := mkGreeting {
  sender : JsValue;
  receiver : JsValue;
  day_index : option Z;
  subtitle : JsValue;
  quote : JsValue;
  day_message : JsValue;
  memories : list jsstring;
  created_at : Timestamp
}.

Record Request : Type := mkRequest {
  body : JsObject;
  query_id : JsValue;
  (** [req.protocol] and [req.get('host')] *)
  protocol : jsstring;
  host : option jsstring
}.

Inductive Payload : Type :=
| ErrorOnly (error : string)
| Created (id url : jsstring)
| Found (g : Greeting).

Record Response : Type := mkResponse {
  status : Z;
  payload : Payload
}.

(** [line.trim() !== ''] *)
Definition non_blank (line : jsstring) : bool :=
  match trim line with
  | [] => false
  | _ :: _ => true
  end.

(** The memories of the body, a string with newlines, as the array of
    its non-blank lines. *)
Definition parse_memories (memories : JsValue) : list jsstring :=
  match memories with
  | JStr (c :: s) => List.filter non_blank (split 10 (c :: s))
  | _ => []
  end.

(** [app.post('/api/create', ...)] *)
Definition create (amb : Ambient) (req : Request) (db : gmap jsstring Greeting)
  : Response * gmap jsstring Greeting :=
  let o := body req in
  let sender := own o (lit "sender") in
  let receiver := own o (lit "receiver") in
  if negb (truthy sender) || negb (truthy receiver) then
    (mkResponse 400 (ErrorOnly "Missing required fields"), db)
  else
    let id := Nanoid.nanoid (pool amb) 8 in
    let g := mkGreeting sender receiver
               (parseInt10 (or_else (own o (lit "day_index")) (JNum 0)))
               (or_else (own o (lit "subtitle")) (JStr []))
               (or_else (own o (lit "quote")) (JStr []))
               (or_else (own o (lit "day_message")) (JStr []))
               (parse_memories (own o (lit "memories")))
               (now amb) in
    let url := protocol req ++ lit "://"
               ++ match host req with Some h => h | None => lit "undefined" end
               ++ lit "/?id=" ++ id in
    (mkResponse 201 (Created id url), <[id := g]> db).

(** [app.get('/api/get', ...)]: a [Map] finds a value only under the
    string it was set with. *)
Definition get (req : Request) (db : gmap jsstring Greeting) : Response :=
  let id := query_id req in
  if negb (truthy id) then mkResponse 400 (ErrorOnly "Missing ID")
  else
    match id with
    | JStr s =>
        match db !! s with
        | Some g => mkResponse 200 (Found g)
        | None => mkResponse 404 (ErrorOnly "Not found")
        end
    | _ => mkResponse 404 (ErrorOnly "Not found")
    end.

End Demo.

(** ** The creation form of the page, [js/dynamic-loader.js]

    The data path of a submission: what is read from the form, what is
    posted, and what the answer of the create handler becomes.  The
    rendering of the result is not part of it. *)

Module Form.

(** The values of [#senderName], [#receiverName] and of [#daySelect]
    when the page has one. *)
Record Fields : Type := mkFields {
  senderName : jsstring;
  receiverName : jsstring;
  daySelect : option jsstring
}.

Record Data : Type := mkData {
  sender : jsstring;
  receiver : jsstring;
  day_index : option Z
}.

Definition collectFormData (f : Fields) : Data :=
  mkData (trim (senderName f)) (trim (receiverName f))
    (parseInt10 (JStr (match daySelect f with
                       | Some (c :: v) => c :: v
                       | _ => lit "0"
                       end))).

(** [JSON.stringify(greetingData)] as the server parses it: a NaN is
    written as [null]. *)
Definition stringify (d : Data) : JsObject :=
  [(lit "sender", JStr (sender d));
   (lit "receiver", JStr (receiver d));
   (lit "day_index", match day_index d with
                     | Some n => JNum n
                     | None => JNull
                     end)].

(** How a submission ends: the alert for missing names, the link on
    display, or the alert that reports the failure with its message. *)
Inductive Submission : Type :=
| Refused (alert : string)
| Linked (url : jsstring)
| Failed (message : jsstring).

(** [createGreeting] on the response of the endpoint: the parsed result
    of a 2xx response ([inr]), and otherwise the thrown error ([inl]),
    whose message is that of the body or the default one. *)
Definition createGreeting (resp : Http.Response) : jsstring + Http.Payload :=
  if negb ((200 <=? Http.status resp) && (Http.status resp <=? 299)) then
    let message :=
      match Http.payload resp with
      | ErrorMessage _ m => lit m
      | Greeting d => Store.message d
      | _ => []
      end in
    inl (match message with
         | [] => lit "Failed to create greeting"
         | _ :: _ => message
         end)
  else inr (Http.payload resp).

(** [handleFormSubmit], its request served by the create handler under
    the headers the deployment adds. *)
Definition handleFormSubmit (amb : Ambient) (proto host : option jsstring)
  (f : Fields) (w : World) : Submission * World :=
  let data := collectFormData f in
  match sender data, receiver data with
  | _ :: _, _ :: _ =>
      let '(resp, w') :=
        Create.handler amb
          (Http.mkRequest "POST" (Some (stringify data)) JUndefined proto host) w in
      match createGreeting resp with
      | inr (Http.Created _ url) => (Linked url, w')
      | inr _ => (Linked (lit "undefined"), w')
      | inl message => (Failed message, w')
      end
  | _, _ => (Refused "Please enter both sender and receiver names", w)
  end.

End Form.

(** ** What the table holds *)

Module Bounds.

(** A row is filed under its own identifier and its texts are within
    the bounds of the boundary, counted in code units. *)
Definition row_within_bounds (key : jsstring) (row : Row) : Prop :=
  row_id row = key
  /\ (length (row_sender row) <= 100)%nat
  /\ (length (row_receiver row) <= 100)%nat
  /\ (length (row_message row) <= 500)%nat.

Definition table_within_bounds (w : World) : Prop :=
  forall id row, table w !! id = Some row -> row_within_bounds id row.

End Bounds.

Import Bounds.

(** ** What the loader leaves alone *)

Module Layout.

(** The part of the document that decides what is on display: for each
    element its identifier, the names its selectors test, and its
    [style.display]. *)
Definition layout (p : Loader.Page) : list (string * list string * jsstring) :=
  List.map (fun e => (Loader.el_id e, Loader.el_marks e, Loader.el_display e))
    (Loader.elements p).

(** The parts of a page that populating a greeting never touches. *)
Definition frame (p : Loader.Page) :=
  (layout p, Loader.modal_open p, Loader.timers p, Loader.trace p).

(** The number of times a code unit occurs in a string. *)
Definition occurrences (c : N) (s : jsstring) : nat := count_occ N.eq_dec s c.

End Layout.

Import Layout.
(** * Properties *)

(** ** Strings *)

Lemma trimStart_length (s : jsstring) : (length (trimStart s) <= length s)%nat.
Proof.
  induction s as [|c s IH]; simpl; [lia|].
  destruct (is_white_space c); simpl; lia.
Qed.

Lemma trim_length (s : jsstring) : (length (trim s) <= length s)%nat.
Proof.
  unfold trim, trimEnd. rewrite length_rev.
  etransitivity; [apply trimStart_length|].
  rewrite length_rev. apply trimStart_length.
Qed.

(** A string made of white space only trims to the empty string. *)
Lemma trimStart_blank (s : jsstring) :
  forallb is_white_space s = true -> trimStart s = [].
Proof.
  induction s as [|c s IH]; simpl; [done|].
  intros [Hc Hs]%andb_prop. rewrite Hc. auto.
Qed.

Lemma trim_blank (s : jsstring) : forallb is_white_space s = true -> trim s = [].
Proof. intros H. unfold trim. by rewrite trimStart_blank. Qed.

(** [trim] leaves alone a string that neither starts nor ends with
    white space. *)
Lemma trimStart_clean (s : jsstring) : starts_clean s = true -> trimStart s = s.
Proof. destruct s as [|c s]; [done|]. simpl. by destruct (is_white_space c). Qed.

Lemma trim_fixed (s : jsstring) : no_outer_space s = true -> trim s = s.
Proof.
  unfold no_outer_space, trim, trimEnd. intros [Hs Hr]%andb_prop.
  rewrite (trimStart_clean s Hs), (trimStart_clean (rev s) Hr).
  apply rev_involutive.
Qed.

(** [char_length] never exceeds [.length]: the table's checks are
    implied by those of the boundary. *)
Lemma char_length_le (s : jsstring) : (char_length s <= length s)%nat.
Proof.
  assert (H : forall n (t : jsstring), (length t <= n)%nat ->
                                       (char_length t <= length t)%nat).
  { induction n as [|n IH]; intros [|c [|d t]] Hn; simpl in *; try lia.
    destruct (is_high_surrogate c && is_low_surrogate d).
    - specialize (IH t). lia.
    - specialize (IH (d :: t)). simpl in IH. lia. }
  by apply (H (length s)).
Qed.

(** ** Identifiers *)

Lemma nanoid_length (pool : nat -> N) (size : nat) :
  length (Nanoid.nanoid pool size) = size.
Proof. unfold Nanoid.nanoid. by rewrite length_map, length_seq. Qed.

Lemma urlAlphabet_id_chars : forallb Get.id_char Nanoid.urlAlphabet = true.
Proof. reflexivity. Qed.

Lemma nanoid_id_chars (pool : nat -> N) (size : nat) :
  forallb Get.id_char (Nanoid.nanoid pool size) = true.
Proof.
  unfold Nanoid.nanoid. apply forallb_forall. intros c Hc.
  apply in_map_iff in Hc as (i & <- & _).
  pose proof urlAlphabet_id_chars as Ha.
  rewrite forallb_forall in Ha. apply Ha, nth_In.
  change 63%N with (N.ones 6). rewrite N.land_ones.
  assert (pool i mod 2 ^ 6 < 2 ^ 6)%N by (apply N.mod_lt; done).
  change (length Nanoid.urlAlphabet) with 64%nat.
  change (2 ^ 6)%N with 64%N in *. lia.
Qed.

(** Every identifier the create handler draws passes the check of the
    get handler. *)
Lemma drawn_id_well_formed (amb : Ambient) :
  Get.id_regex_test (JStr (drawn_id amb)) = true.
Proof.
  unfold Get.id_regex_test, drawn_id. simpl to_string.
  pose proof (nanoid_length (pool amb) Create.ID_LENGTH) as Hl.
  pose proof (nanoid_id_chars (pool amb) Create.ID_LENGTH) as Hc.
  destruct (Nanoid.nanoid (pool amb) Create.ID_LENGTH); [discriminate | done].
Qed.

(** ** The create handler, case by case *)

Lemma insert_fresh (now : Timestamp) (g : NewGreeting) (w : World) :
  check_constraints g = true ->
  table w !! ng_id g = None ->
  insert now g w
  = (None, mkWorld (<[ng_id g := row_of now g]> (table w)) (queries w ++ [QInsert g])).
Proof. intros Hc Hf. unfold insert. by rewrite Hc, Hf. Qed.

(** No retry on a collision: a drawn identifier that is already a key is
    answered with 500. *)
Lemma insert_taken_is_refused (now : Timestamp) (g : NewGreeting) (w : World) :
  is_Some (table w !! ng_id g) ->
  is_Some (insert now g w).1 /\ table (insert now g w).2 = table w.
Proof.
  intros [row Hr]. unfold insert.
  destruct (check_constraints g); simpl; [rewrite Hr|]; simpl; eauto.
Qed.

Lemma valid_name_inv (v : JsValue) :
  valid_name v = true ->
  exists s, v = JStr s /\ s <> [] /\ (length s <= 100)%nat.
Proof.
  destruct v as [| | | |[|c s]|]; try discriminate. intros H.
  exists (c :: s). unfold valid_name, Create.MAX_NAME_LENGTH in H.
  repeat split; [done | lia].
Qed.

Lemma valid_message_inv (v : JsValue) :
  valid_message v = true ->
  (truthy v && greater_than (length_of v) Create.MAX_MESSAGE_LENGTH = false)
  /\ Create.message_or_empty v = Normal (stored_text v)
  /\ (length (stored_text v) <= 500)%nat.
Proof.
  destruct v as [| | | |m|]; try discriminate.
  - intros _. repeat split; simpl; done || lia.
  - unfold valid_message, Create.MAX_MESSAGE_LENGTH. intros H.
    repeat split.
    + simpl. destruct m; [done|]. simpl length in *. lia.
    + destruct m; reflexivity.
    + simpl. pose proof (trim_length m). lia.
Qed.

(** A body that passes the boundary reaches the table with the trimmed
    fields, and the response follows the table's verdict. *)
Lemma create_submits (amb : Ambient) (req : Request) (o : JsObject) (w : World) :
  method req = "POST"%string ->
  body req = Some o ->
  valid_name (own o (lit "sender")) = true ->
  valid_name (own o (lit "receiver")) = true ->
  valid_message (own o (lit "message")) = true ->
  check_constraints (submitted amb o) = true
  /\ Create.handler amb req w
     = let '(e, w') := insert (now amb) (submitted amb o) w in
       (match e with
        | Some _ => respond 500 (ErrorMessage "Database error" "Failed to save greeting")
        | None => respond 201 (Created (drawn_id amb) (Create.share_url req (drawn_id amb)))
        end, w').
Proof.
  intros Hm Hb Hs Hr Hmsg.
  destruct (valid_name_inv _ Hs) as (s & Es & Hs0 & Hsl).
  destruct (valid_name_inv _ Hr) as (r & Er & Hr0 & Hrl).
  destruct (valid_message_inv _ Hmsg) as (Hgt & Hme & Hml).
  split.
  - unfold check_constraints, submitted; simpl. rewrite Es, Er; simpl.
    pose proof (char_length_le (trim s)). pose proof (trim_length s).
    pose proof (char_length_le (trim r)). pose proof (trim_length r).
    pose proof (char_length_le (stored_text (own o (lit "message")))).
    rewrite !andb_true_iff, !Nat.leb_le. lia.
  - unfold Create.handler, Create.try_block, try_catch, bind, eval, ret, await.
    rewrite Hm, Hb; simpl.
    rewrite Hgt, Hme. unfold submitted. rewrite Es, Er.
    destruct s as [|c s]; [done|]. destruct r as [|c' r]; [done|].
    simpl in Hsl, Hrl. 
    cbn [truthy negb orb length_of greater_than call_trim].
    unfold Create.MAX_NAME_LENGTH.
    replace (100 <? Z.of_nat (length (c :: s))) with false by (simpl length; lia).
    replace (100 <? Z.of_nat (length (c' :: r))) with false by (simpl length; lia).
    cbn [stored_text]. unfold drawn_id.
    destruct (insert _ _ w) as [[e|] w']; reflexivity.
Qed.

Lemma create_collision_is_500
  (amb : Ambient) (req : Request) (o : JsObject) (w : World) :
  method req = "POST"%string ->
  body req = Some o ->
  valid_name (own o (lit "sender")) = true ->
  valid_name (own o (lit "receiver")) = true ->
  valid_message (own o (lit "message")) = true ->
  is_Some (table w !! drawn_id amb) ->
  status (Create.handler amb req w).1 = 500
  /\ table (Create.handler amb req w).2 = table w.
Proof.
  intros Hm Hb Hs Hr Hmsg Htaken.
  destruct (create_submits amb req o w Hm Hb Hs Hr Hmsg) as [_ ->].
  destruct (insert_taken_is_refused (now amb) (submitted amb o) w Htaken)
    as [[e He] Ht].
  destruct (insert _ _ w) as [[e'|] w']; simpl in *; [done | discriminate].
Qed.

Lemma call_trim_inv (v : JsValue) (t : jsstring) :
  call_trim v = Normal t -> (exists s, v = JStr s) /\ t = stored_text v.
Proof. destruct v; try discriminate. intros [= <-]. eauto. Qed.

Lemma message_or_empty_inv (v : JsValue) (t : jsstring) :
  Create.message_or_empty v = Normal t -> t = stored_text v.
Proof.
  unfold Create.message_or_empty. destruct (truthy v) eqn:Hv.
  - by intros [_ ->]%call_trim_inv.
  - intros [= <-]. by destruct v as [| | | |[|c s]|].
Qed.

(** A 201 response means the drawn identifier was free and the row of
    the trimmed fields is now in the table. *)
Lemma create_201_inv (amb : Ambient) (req : Request) (w : World) :
  status (Create.handler amb req w).1 = 201 ->
  exists o,
    method req = "POST"%string
    /\ body req = Some o
    /\ (exists s, own o (lit "sender") = JStr s)
    /\ (exists r, own o (lit "receiver") = JStr r)
    /\ table w !! drawn_id amb = None
    /\ Create.handler amb req w
       = (respond 201 (Created (drawn_id amb) (Create.share_url req (drawn_id amb))),
          mkWorld (<[drawn_id amb := row_of (now amb) (submitted amb o)]> (table w))
            (queries w ++ [QInsert (submitted amb o)])).
Proof.
  unfold Create.handler.
  destruct (String.eqb_spec (method req) "POST") as [Hm|Hm]; [|discriminate].
  unfold try_catch, Create.try_block, bind, eval, ret, await; cbn [negb].
  destruct (body req) as [o|] eqn:Hb; [|discriminate]. cbn [Create.destructure].
  destruct (negb (truthy (own o (lit "sender"))) || negb (truthy (own o (lit "receiver"))));
    [discriminate|].
  destruct (greater_than (length_of (own o (lit "sender"))) _); [discriminate|].
  destruct (greater_than (length_of (own o (lit "receiver"))) _); [discriminate|].
  destruct (truthy (own o (lit "message")) && _); [discriminate|].
  destruct (call_trim (own o (lit "sender"))) as [s|] eqn:Es; [|discriminate].
  destruct (call_trim (own o (lit "receiver"))) as [r|] eqn:Er; [|discriminate].
  destruct (Create.message_or_empty _) as [m|] eqn:Em; [|discriminate].
  apply call_trim_inv in Es as [Hs ->]. apply call_trim_inv in Er as [Hr ->].
  apply message_or_empty_inv in Em as ->.
  fold (drawn_id amb). fold (submitted amb o).
  unfold insert.
  destruct (negb (check_constraints (submitted amb o))); [discriminate|].
  change (ng_id (submitted amb o)) with (drawn_id amb).
  destruct (table w !! drawn_id amb) eqn:Hf; [discriminate|].
  intros _. exists o. by repeat split.
Qed.

(** ** The table only grows *)

Lemma same_table_keeps_rows (w w' : World) :
  table w' = table w -> keeps_rows w w'.
Proof. intros E id row Hr. by rewrite E. Qed.

Lemma insert_keeps_rows (now : Timestamp) (g : NewGreeting) (w : World) :
  keeps_rows w (insert now g w).2.
Proof.
  unfold insert.
  destruct (negb (check_constraints g)); [by apply same_table_keeps_rows|].
  destruct (table w !! ng_id g) eqn:Hf; [by apply same_table_keeps_rows|].
  intros id row Hr. simpl.
  rewrite lookup_insert_ne; [done|]. congruence.
Qed.

Lemma create_keeps_rows (amb : Ambient) (req : Request) (w : World) :
  keeps_rows w (Create.handler amb req w).2.
Proof.
  unfold Create.handler.
  destruct (negb (String.eqb (method req) "POST")); [by apply same_table_keeps_rows|].
  unfold try_catch, Create.try_block, bind, eval, ret, await.
  destruct (Create.destructure (body req)) as [o|]; [|by apply same_table_keeps_rows].
  repeat (match goal with |- context [if ?b then _ else _] => destruct b end;
          [by apply same_table_keeps_rows|]).
  destruct (call_trim (own o (lit "sender"))); [|by apply same_table_keeps_rows].
  destruct (call_trim (own o (lit "receiver"))); [|by apply same_table_keeps_rows].
  destruct (Create.message_or_empty _); [|by apply same_table_keeps_rows].
  match goal with |- context [insert ?n ?g w] =>
    pose proof (insert_keeps_rows n g w) as Hk; destruct (insert n g w) as [[e|] w']
  end; exact Hk.
Qed.

Lemma get_keeps_table (req : Request) (w : World) :
  table (Get.handler req w).2 = table w.
Proof.
  unfold Get.handler.
  destruct (negb (String.eqb (method req) "GET")); [done|].
  unfold try_catch, Get.try_block, bind, ret, await, select_single.
  destruct (negb (truthy (query_id req))); [done|].
  destruct (negb (Get.id_regex_test (query_id req))); [done|].
  destruct (table w !! to_string (query_id req)); reflexivity.
Qed.

Lemma serves_keeps_rows (w w' : World) : serves w w' -> keeps_rows w w'.
Proof.
  induction 1 as [w|amb req w w' _ IH|req w w' _ IH]; intros id row Hr.
  - done.
  - by apply create_keeps_rows, IH.
  - rewrite get_keeps_table. by apply IH.
Qed.

(** A GET with a well-formed identifier sends one query and answers
    from the row it finds. *)
Lemma get_answers (req : Request) (id : jsstring) (w : World) :
  method req = "GET"%string ->
  query_id req = JStr id ->
  Get.id_regex_test (JStr id) = true ->
  Get.handler req w
  = (match table w !! id with
     | Some row =>
         mkResponse 200 (Some "s-maxage=3600, stale-while-revalidate"%string)
           (Greeting (project row))
     | None => respond 404 (ErrorMessage "Not found" "Greeting not found")
     end,
     mkWorld (table w) (queries w ++ [QSelectSingle id])).
Proof.
  intros Hm Hq Hre.
  unfold Get.handler, try_catch, Get.try_block, bind, ret, await, select_single.
  rewrite Hm, Hq, Hre. cbn [String.eqb Ascii.eqb Bool.eqb negb to_string].
  assert (truthy (JStr id) = true) as ->.
  { destruct id; [discriminate | reflexivity]. }
  cbn [negb]. by destruct (table w !! id).
Qed.

(** ** The model on small inputs *)

Example trim_strips_both_ends : trim (lit "  a b  ") = lit "a b".
Proof. reflexivity. Qed.

Example parseInt_reads_a_prefix : parseInt (JStr (lit " 42px")) = Some 42.
Proof. reflexivity. Qed.

Example parseInt_reads_hexadecimal : parseInt (JStr (lit "-0x1F")) = Some (-31).
Proof. reflexivity. Qed.

Example parseInt_of_letters_is_NaN : parseInt (JStr (lit "abc")) = None.
Proof. reflexivity. Qed.

Example parseInt_of_an_array : parseInt (JArr [JNum 7; JNull; JStr (lit "x")]) = Some 7.
Proof. reflexivity. Qed.

Example nanoid_of_a_counting_pool :
  Nanoid.nanoid (fun i => N.of_nat i) 8 = lit "useandom".
Proof. reflexivity. Qed.

Example char_length_counts_a_pair_once :
  char_length [72%N; 55357%N; 56469%N] = 2%nat.
Proof. reflexivity. Qed.

Example create_without_body_is_500 :
  status (Create.handler (Sample.ambient 0)
            (mkRequest "POST" None JUndefined None None) Sample.empty_world).1 = 500.
Proof. reflexivity. Qed.

Example create_with_numeric_sender_is_500 :
  Create.handler (Sample.ambient 0)
    (Sample.post [(lit "sender", JNum 7); (lit "receiver", JStr (lit "Bob"))])
    Sample.empty_world
  = (respond 500 (ErrorMessage "Server error" "An unexpected error occurred"),
     Sample.empty_world).
Proof. reflexivity. Qed.

Example repeated_id_parameter_is_400 :
  status (Get.handler (Sample.get (JArr [JStr (lit "abc"); JStr (lit "def")]))
            Sample.empty_world).1 = 400.
Proof. reflexivity. Qed.

(** ** The contract of the two endpoints *)

(** C1, as the handlers have it.  For a body that passes the boundary,
    whose sender and receiver are not empty after trimming, and a drawn
    identifier that is free, create answers 201 with that identifier,
    and get with it answers 200 with the sender, receiver and message of
    the body after [trim] (the empty string for an absent message). *)
Theorem round_trip_returns_trimmed_fields
  (amb : Ambient) (req greq : Request) (o : JsObject) (s r : jsstring) (w : World) :
  method req = "POST"%string ->
  body req = Some o ->
  own o (lit "sender") = JStr s ->
  own o (lit "receiver") = JStr r ->
  valid_name (JStr s) = true ->
  valid_name (JStr r) = true ->
  trim s <> [] ->
  trim r <> [] ->
  valid_message (own o (lit "message")) = true ->
  table w !! drawn_id amb = None ->
  method greq = "GET"%string ->
  query_id greq = JStr (drawn_id amb) ->
  (Create.handler amb req w).1
  = respond 201 (Created (drawn_id amb) (Create.share_url req (drawn_id amb)))
  /\ exists d,
      (Get.handler greq (Create.handler amb req w).2).1
      = mkResponse 200 (Some "s-maxage=3600, stale-while-revalidate"%string)
          (Greeting d)
      /\ sender d = trim s
      /\ receiver d = trim r
      /\ message d = match own o (lit "message") with
                     | JStr m => trim m
                     | _ => []
                     end.
Proof.
  intros Hm Hb Es Er Hs Hr _ _ Hmsg Hfree Hgm Hgq.
  rewrite <- Es in Hs. rewrite <- Er in Hr.
  destruct (create_submits amb req o w Hm Hb Hs Hr Hmsg) as [Hc ->].
  rewrite (insert_fresh _ _ _ Hc Hfree). split; [reflexivity|].
  cbn [fst snd].
  rewrite (get_answers greq (drawn_id amb) _ Hgm Hgq (drawn_id_well_formed amb)).
  cbn [fst table]. change (ng_id (submitted amb o)) with (drawn_id amb).
  rewrite lookup_insert_eq. eexists. split; [reflexivity|].
  simpl. rewrite Es, Er. by repeat split.
Qed.

Lemma round_trip_returns_trimmed_fields_witness :
  let o := Sample.with_field "message" (JStr (lit " With love  "))
             (Sample.names "  Ann" "Bob ") in
  let req := Sample.post o in
  let greq := Sample.get (JStr (drawn_id (Sample.ambient 0))) in
  (valid_name (JStr (lit "  Ann")) = true /\ valid_name (JStr (lit "Bob ")) = true
   /\ trim (lit "  Ann") <> [] /\ trim (lit "Bob ") <> []
   /\ valid_message (own o (lit "message")) = true
   /\ table Sample.empty_world !! drawn_id (Sample.ambient 0) = None)
  /\ exists d,
      (Get.handler greq (Create.handler (Sample.ambient 0) req Sample.empty_world).2).1
      = mkResponse 200 (Some "s-maxage=3600, stale-while-revalidate"%string)
          (Greeting d)
      /\ sender d = lit "Ann" /\ receiver d = lit "Bob"
      /\ message d = lit "With love".
Proof.
  intros o req greq.
  assert (Hs : trim (lit "  Ann") <> []) by discriminate.
  assert (Hr : trim (lit "Bob ") <> []) by discriminate.
  split; [by repeat split|].
  destruct (round_trip_returns_trimmed_fields (Sample.ambient 0) req greq o
              (lit "  Ann") (lit "Bob ") Sample.empty_world
              eq_refl eq_refl eq_refl eq_refl eq_refl eq_refl Hs Hr
              eq_refl eq_refl eq_refl eq_refl)
    as (_ & d & Hd & Hs' & Hr' & Hm).
  exists d. repeat split; assumption.
Defined.

(** C1 as stated fails: a sender supplied with a leading space passes
    the boundary, and get returns it without the space. *)
Lemma round_trip_alters_padded_sender :
  let o := Sample.with_field "message" (JStr (lit "hi")) (Sample.names " Ann" "Bob") in
  let created := Create.handler (Sample.ambient 0) (Sample.post o) Sample.empty_world in
  valid_name (own o (lit "sender")) = true
  /\ valid_name (own o (lit "receiver")) = true
  /\ valid_message (own o (lit "message")) = true
  /\ created.1 = respond 201 (Created (lit "useandom")
                                (lit "https://example.org/?id=useandom"))
  /\ (Get.handler (Sample.get (JStr (lit "useandom"))) created.2).1
     = mkResponse 200 (Some "s-maxage=3600, stale-while-revalidate"%string)
         (Greeting (mkSelected (lit "Ann") (lit "Bob") (lit "hi") (Some 0) 1700000000))
  /\ JStr (lit "Ann") <> own o (lit "sender").
Proof. repeat split. discriminate. Qed.

(** C2 at its failing input: a sender of one space passes the boundary,
    the create is answered with 201, and the row it stores has the empty
    string for sender. *)
Lemma blank_sender_is_stored :
  let o := Sample.names " " "Bob" in
  let created := Create.handler (Sample.ambient 0) (Sample.post o) Sample.empty_world in
  status created.1 = 201
  /\ row_sender <$> (table created.2 !! lit "useandom") = Some []
  /\ trim [] = [].
Proof. by repeat split. Qed.

(** The boundary tests the names before trimming them: any name made of
    white space only is stored as the empty string. *)
Lemma blank_names_pass_the_boundary
  (amb : Ambient) (req : Request) (o : JsObject) (s r : jsstring) (w : World) :
  method req = "POST"%string ->
  body req = Some o ->
  own o (lit "sender") = JStr s ->
  own o (lit "receiver") = JStr r ->
  valid_name (JStr s) = true ->
  valid_name (JStr r) = true ->
  valid_message (own o (lit "message")) = true ->
  forallb is_white_space s = true ->
  table w !! drawn_id amb = None ->
  status (Create.handler amb req w).1 = 201
  /\ row_sender <$> (table (Create.handler amb req w).2 !! drawn_id amb) = Some [].
Proof.
  intros Hm Hb Es Er Hs Hr Hmsg Hblank Hfree.
  rewrite <- Es in Hs. rewrite <- Er in Hr.
  destruct (create_submits amb req o w Hm Hb Hs Hr Hmsg) as [Hc ->].
  rewrite (insert_fresh _ _ _ Hc Hfree). split; [reflexivity|].
  cbn [snd table]. change (ng_id (submitted amb o)) with (drawn_id amb).
  rewrite lookup_insert_eq. simpl. rewrite Es. simpl. by rewrite trim_blank.
Qed.

(** C3.  A POST whose body lacks the sender or the receiver, or holds
    the empty string for one of them, is answered with status 400; the
    table is unchanged and no query is sent. *)
Theorem create_rejects_missing_names
  (amb : Ambient) (req : Request) (o : JsObject) (w : World) :
  method req = "POST"%string ->
  body req = Some o ->
  own o (lit "sender") = JUndefined \/ own o (lit "sender") = JStr []
  \/ own o (lit "receiver") = JUndefined \/ own o (lit "receiver") = JStr [] ->
  status (Create.handler amb req w).1 = 400
  /\ (Create.handler amb req w).2 = w.
Proof.
  intros Hm Hb Hmissing.
  unfold Create.handler, try_catch, Create.try_block, bind, eval, ret.
  rewrite Hm, Hb. cbn [String.eqb Ascii.eqb Bool.eqb negb Create.destructure].
  assert (negb (truthy (own o (lit "sender")))
          || negb (truthy (own o (lit "receiver"))) = true) as ->; [|done].
  destruct Hmissing as [-> | [-> | [-> | ->]]];
    rewrite ?orb_true_r; reflexivity.
Qed.

Lemma create_rejects_missing_names_witness :
  let o := [(lit "sender", JStr []); (lit "message", JStr (lit "hi"))] in
  let req := Sample.post o in
  (method req = "POST"%string /\ body req = Some o
   /\ own o (lit "sender") = JStr [])
  /\ status (Create.handler (Sample.ambient 0) req Sample.empty_world).1 = 400
  /\ (Create.handler (Sample.ambient 0) req Sample.empty_world).2
     = Sample.empty_world.
Proof.
  intros o req. split; [by repeat split|].
  apply (create_rejects_missing_names (Sample.ambient 0) req o
           Sample.empty_world); [reflexivity | reflexivity |].
  right. left. reflexivity.
Defined.

(** C4.  With a valid sender and receiver, a message of 501 code units
    is answered with status 400 and nothing reaches the table; a message
    of exactly 500 passes the boundary: the status is not 400, and it is
    201 as soon as the drawn identifier is free. *)
Theorem message_bound_is_500
  (amb : Ambient) (req : Request) (o : JsObject) (m : jsstring) (w : World) :
  method req = "POST"%string ->
  body req = Some o ->
  valid_name (own o (lit "sender")) = true ->
  valid_name (own o (lit "receiver")) = true ->
  own o (lit "message") = JStr m ->
  (length m = 501%nat ->
   status (Create.handler amb req w).1 = 400 /\ (Create.handler amb req w).2 = w)
  /\ (length m = 500%nat ->
      status (Create.handler amb req w).1 <> 400
      /\ (table w !! drawn_id amb = None ->
          status (Create.handler amb req w).1 = 201)).
Proof.
  intros Hm Hb Hs Hr Hmsg. split; intros Hlen.
  - destruct (valid_name_inv _ Hs) as (s & Es & Hs0 & Hsl).
    destruct (valid_name_inv _ Hr) as (r & Er & Hr0 & Hrl).
    unfold Create.handler, try_catch, Create.try_block, bind, eval, ret.
    rewrite Hm, Hb. cbn [String.eqb Ascii.eqb Bool.eqb negb Create.destructure].
    rewrite Es, Er, Hmsg.
    destruct s as [|c s]; [done|]. destruct r as [|c' r]; [done|].
    destruct m as [|c'' m]; [discriminate|].
    cbn [truthy negb orb andb length_of greater_than].
    unfold Create.MAX_NAME_LENGTH, Create.MAX_MESSAGE_LENGTH.
    replace (100 <? Z.of_nat (length (c :: s))) with false by lia.
    replace (100 <? Z.of_nat (length (c' :: r))) with false by lia.
    replace (500 <? Z.of_nat (length (c'' :: m))) with true by lia.
    done.
  - assert (Hv : valid_message (own o (lit "message")) = true).
    { rewrite Hmsg. unfold valid_message, Create.MAX_MESSAGE_LENGTH. lia. }
    destruct (create_submits amb req o w Hm Hb Hs Hr Hv) as [Hc ->].
    split.
    + destruct (insert _ _ w) as [[e|] w']; simpl; lia.
    + intros Hfree. rewrite (insert_fresh _ _ _ Hc Hfree). reflexivity.
Qed.

Lemma message_bound_is_500_witness :
  let long := repeat 120%N 501 in
  let full := repeat 120%N 500 in
  let o m := Sample.with_field "message" (JStr m) (Sample.names "Ann" "Bob") in
  (length long = 501%nat /\ length full = 500%nat
   /\ table Sample.empty_world !! drawn_id (Sample.ambient 0) = None)
  /\ status (Create.handler (Sample.ambient 0) (Sample.post (o long))
               Sample.empty_world).1 = 400
  /\ status (Create.handler (Sample.ambient 0) (Sample.post (o full))
               Sample.empty_world).1 = 201.
Proof.
  intros long full o.
  split; [by repeat split|]. split.
  - eapply (message_bound_is_500 (Sample.ambient 0) (Sample.post (o long))
              (o long) long Sample.empty_world); reflexivity.
  - eapply (message_bound_is_500 (Sample.ambient 0) (Sample.post (o full))
              (o full) full Sample.empty_world); reflexivity.
Defined.

Lemma id_char_spec (c : N) :
  Get.id_char c = alphanumeric_or_dash c || (c =? 95)%N.
Proof.
  unfold Get.id_char, alphanumeric_or_dash.
  destruct (c =? 95)%N, (c =? 45)%N; rewrite ?orb_true_r, ?orb_false_r; reflexivity.
Qed.

Lemma regexp_refuses (v : JsValue) (c : N) :
  In c (to_string v) -> Get.id_char c = false -> Get.id_regex_test v = false.
Proof.
  unfold Get.id_regex_test. intros Hin Hc.
  destruct (to_string v) as [|c0 s]; [done|].
  apply not_true_is_false. intros Hall.
  rewrite forallb_forall in Hall. rewrite (Hall c Hin) in Hc. discriminate.
Qed.

(** C5, as the handler has it.  A GET whose identifier is missing or
    empty, or holds a character outside [[a-zA-Z0-9_-]], is answered
    with status 400; the world is left as it was, so no query is sent.
    A space and a slash are outside the class. *)
Theorem get_rejects_malformed_identifier (req : Request) (w : World) :
  method req = "GET"%string ->
  query_id req = JUndefined \/ query_id req = JStr []
  \/ (exists c, In c (to_string (query_id req)) /\ Get.id_char c = false) ->
  (status (Get.handler req w).1 = 400 /\ (Get.handler req w).2 = w)
  /\ Get.id_char 32 = false /\ Get.id_char 47 = false.
Proof.
  intros Hm Hbad. split; [|by split].
  unfold Get.handler, try_catch, Get.try_block, bind, ret.
  rewrite Hm. cbn [String.eqb Ascii.eqb Bool.eqb negb].
  destruct Hbad as [-> | [-> | (c & Hin & Hc)]]; [done | done |].
  destruct (truthy (query_id req)); [|done]. cbn [negb].
  by rewrite (regexp_refuses _ c Hin Hc).
Qed.

Lemma get_rejects_malformed_identifier_witness :
  let spaced := Sample.get (JStr (lit "a b")) in
  let slashed := Sample.get (JStr (lit "a/b")) in
  let missing := Sample.get JUndefined in
  let w := Sample.after_create (Sample.ambient 0)
             (Sample.post (Sample.names "Ann" "Bob")) Sample.empty_world in
  (In 32%N (to_string (query_id spaced)) /\ In 47%N (to_string (query_id slashed)))
  /\ (status (Get.handler spaced w).1 = 400 /\ (Get.handler spaced w).2 = w)
  /\ (status (Get.handler slashed w).1 = 400 /\ (Get.handler slashed w).2 = w)
  /\ (status (Get.handler missing w).1 = 400 /\ (Get.handler missing w).2 = w).
Proof.
  intros spaced slashed missing w.
  assert (Hs : In 32%N (to_string (query_id spaced))) by (simpl; tauto).
  assert (Hl : In 47%N (to_string (query_id slashed))) by (simpl; tauto).
  split; [by split|].
  destruct (get_rejects_malformed_identifier spaced w eq_refl) as [H1 _].
  { right. right. exists 32%N. by split. }
  destruct (get_rejects_malformed_identifier slashed w eq_refl) as [H2 _].
  { right. right. exists 47%N. by split. }
  destruct (get_rejects_malformed_identifier missing w eq_refl) as [H3 _].
  { by left. }
  exact (conj H1 (conj H2 H3)).
Defined.

(** C5 as stated fails: the underscore is neither alphanumeric nor a
    dash, yet an identifier that holds one passes the check and is
    looked up. *)
Lemma underscore_identifier_is_looked_up :
  let req := Sample.get (JStr (lit "a_b")) in
  alphanumeric_or_dash 95 = false
  /\ In 95%N (lit "a_b")
  /\ status (Get.handler req Sample.empty_world).1 = 404
  /\ queries (Get.handler req Sample.empty_world).2 = [QSelectSingle (lit "a_b")].
Proof. repeat split. simpl. tauto. Qed.

(** The class of the check is the alphabet of the generator: an
    identifier drawn by create can hold an underscore. *)
Lemma drawn_id_may_hold_underscore :
  In 95%N (Nanoid.nanoid (fun _ => 44%N) Create.ID_LENGTH).
Proof. left. reflexivity. Qed.

(** C6.  A GET with a well-formed identifier is answered with status
    404 when no row has that key, and with status 200 and the stored
    sender, receiver, message, day_index and created_at when a row
    has. *)
Theorem get_finds_exactly_the_stored (req : Request) (id : jsstring) (w : World) :
  method req = "GET"%string ->
  query_id req = JStr id ->
  Get.id_regex_test (JStr id) = true ->
  (table w !! id = None -> status (Get.handler req w).1 = 404)
  /\ (forall row, table w !! id = Some row ->
        (Get.handler req w).1
        = mkResponse 200 (Some "s-maxage=3600, stale-while-revalidate"%string)
            (Greeting (mkSelected (row_sender row) (row_receiver row)
                         (row_message row) (row_day_index row)
                         (row_created_at row)))).
Proof.
  intros Hm Hq Hre. rewrite (get_answers req id w Hm Hq Hre). split.
  - by intros ->.
  - by intros row ->.
Qed.

Lemma get_finds_exactly_the_stored_witness :
  let w := Sample.after_create (Sample.ambient 0)
             (Sample.post (Sample.names "Ann" "Bob")) Sample.empty_world in
  let stored := JStr (drawn_id (Sample.ambient 0)) in
  let unknown := JStr (lit "nobody-1") in
  (Get.id_regex_test stored = true /\ Get.id_regex_test unknown = true)
  /\ status (Get.handler (Sample.get unknown) w).1 = 404
  /\ (Get.handler (Sample.get stored) w).1
     = mkResponse 200 (Some "s-maxage=3600, stale-while-revalidate"%string)
         (Greeting (mkSelected (lit "Ann") (lit "Bob") [] (Some 0) 1700000000)).
Proof.
  intros w stored unknown. split; [by split|]. split.
  - eapply (get_finds_exactly_the_stored (Sample.get unknown) (lit "nobody-1") w);
      reflexivity.
  - destruct (get_finds_exactly_the_stored (Sample.get stored)
                (drawn_id (Sample.ambient 0)) w) as [_ Hfound];
      [reflexivity | reflexivity | reflexivity |].
    apply (Hfound (mkRow (drawn_id (Sample.ambient 0)) (lit "Ann") (lit "Bob")
                     [] (Some 0) 1700000000)).
    reflexivity.
Defined.

(** C7.  Two successful creates, the second served after the first with
    any number of requests in between, return distinct identifiers: the
    primary key refuses a drawn identifier that is already a key. *)
Theorem sequential_creates_differ
  (amb1 amb2 : Ambient) (req1 req2 : Request) (w w' : World)
  (id1 url1 id2 url2 : jsstring) :
  (Create.handler amb1 req1 w).1 = respond 201 (Created id1 url1) ->
  serves (Create.handler amb1 req1 w).2 w' ->
  (Create.handler amb2 req2 w').1 = respond 201 (Created id2 url2) ->
  id1 <> id2.
Proof.
  intros H1 Hs H2.
  destruct (create_201_inv amb1 req1 w) as (o1 & _ & _ & _ & _ & _ & E1);
    [by rewrite H1|].
  destruct (create_201_inv amb2 req2 w') as (o2 & _ & _ & _ & _ & Hfree & E2);
    [by rewrite H2|].
  rewrite E1 in H1, Hs. rewrite E2 in H2. simpl in H1, H2, Hs.
  injection H1 as <- _. injection H2 as <- _.
  intros Heq. apply serves_keeps_rows in Hs.
  specialize (Hs (drawn_id amb1) (row_of (now amb1) (submitted amb1 o1))).
  simpl in Hs. rewrite lookup_insert_eq in Hs. specialize (Hs eq_refl).
  rewrite Heq in Hs. congruence.
Qed.

Lemma sequential_creates_differ_witness :
  let req := Sample.post (Sample.names "Ann" "Bob") in
  let first := Create.handler (Sample.ambient 0) req Sample.empty_world in
  let between := Get.handler (Sample.get (JStr (lit "useandom"))) first.2 in
  let second := Create.handler (Sample.ambient 1) req between.2 in
  (first.1 = respond 201 (Created (lit "useandom")
                            (lit "https://example.org/?id=useandom"))
   /\ second.1 = respond 201 (Created (lit "seandom-")
                                (lit "https://example.org/?id=seandom-")))
  /\ lit "useandom" <> lit "seandom-".
Proof.
  intros req first between second.
  assert (H1 : first.1 = respond 201 (Created (lit "useandom")
                                        (lit "https://example.org/?id=useandom")))
    by reflexivity.
  assert (H2 : second.1 = respond 201 (Created (lit "seandom-")
                                         (lit "https://example.org/?id=seandom-")))
    by reflexivity.
  split; [by split|].
  eapply (sequential_creates_differ (Sample.ambient 0) (Sample.ambient 1) req req
            Sample.empty_world between.2); [exact H1 | | exact H2].
  apply serves_get, serves_none.
Defined.

(** C9.  A request whose method is not the one the handler accepts is
    answered with status 405, and the world is left as it was: the table
    is unchanged and no query is sent. *)
Theorem wrong_method_is_405 (amb : Ambient) (req : Request) (w : World) :
  (method req <> "POST"%string ->
   Create.handler amb req w = (respond 405 (ErrorOnly "Method not allowed"), w))
  /\ (method req <> "GET"%string ->
      Get.handler req w = (respond 405 (ErrorOnly "Method not allowed"), w)).
Proof.
  split; intros Hm.
  - unfold Create.handler. by destruct (String.eqb_spec (method req) "POST").
  - unfold Get.handler. by destruct (String.eqb_spec (method req) "GET").
Qed.

Lemma wrong_method_is_405_witness :
  let req := mkRequest "PUT" (Some (Sample.names "Ann" "Bob")) (JStr (lit "abc"))
               None None in
  ((method req <> "POST"%string) /\ (method req <> "GET"%string))
  /\ status (Create.handler (Sample.ambient 0) req Sample.empty_world).1 = 405
  /\ (Create.handler (Sample.ambient 0) req Sample.empty_world).2 = Sample.empty_world
  /\ status (Get.handler req Sample.empty_world).1 = 405
  /\ (Get.handler req Sample.empty_world).2 = Sample.empty_world.
Proof.
  intros req.
  assert (Hp : method req <> "POST"%string) by discriminate.
  assert (Hg : method req <> "GET"%string) by discriminate.
  destruct (wrong_method_is_405 (Sample.ambient 0) req Sample.empty_world)
    as [Hc Hq].
  rewrite (Hc Hp), (Hq Hg). repeat split; assumption.
Defined.

(** ** The page loader *)

Lemma find_update_first (id : string) (d : jsstring) (els : list Loader.Element) :
  List.find (fun e => String.eqb (Loader.el_id e) id)
    (Loader.update_first (fun e => String.eqb (Loader.el_id e) id)
       (Loader.set_display d) els)
  = Loader.set_display d <$> List.find (fun e => String.eqb (Loader.el_id e) id) els.
Proof.
  induction els as [|e els IH]; [reflexivity|]. simpl.
  destruct (String.eqb (Loader.el_id e) id) eqn:He; simpl; rewrite He; done.
Qed.

Lemma set_form_display (display : string) (modal : bool) (p : Loader.Page) :
  is_Some (Loader.getElementById "createForm" p) ->
  Loader.el_display
    <$> Loader.getElementById "createForm" (Loader.set_form display modal p)
  = Some (lit display)
  /\ Loader.timers (Loader.set_form display modal p) = Loader.timers p.
Proof.
  intros [e He]. unfold Loader.set_form. rewrite He.
  unfold Loader.getElementById in *. simpl.
  by rewrite find_update_first, He.
Qed.

Lemma form_shown_set_form (display : string) (modal : bool) (p : Loader.Page) :
  is_Some (Loader.getElementById "createForm" p) ->
  Loader.form_shown (Loader.set_form display modal p)
  = bool_decide (lit display = lit "flex").
Proof.
  intros Hform. destruct (set_form_display display modal p Hform) as [Hd _].
  unfold Loader.form_shown.
  destruct (Loader.getElementById "createForm" (Loader.set_form display modal p))
    as [e|]; [|discriminate].
  injection Hd as ->. reflexivity.
Qed.

Lemma fetch_fails_null (outcome : Loader.FetchOutcome) :
  fetch_fails outcome = true -> Loader.fetchGreeting outcome = None.
Proof.
  destruct outcome as [|status json]; [done|]. simpl.
  unfold Loader.fetchGreeting, Loader.fetch_try. intros ->.
  by destruct (status =? 404).
Qed.

(** C8, as the loader has it.  On a page that holds the creation form
    and is not opened from the file system, with no callback pending:
    when the URL has no identifier (or an empty one) the loader shows
    the form once its timer has fired; when the URL has an identifier
    and the fetch fails, the loader hides the form, schedules nothing,
    and the form stays hidden. *)
Theorem loader_form_visibility
  (loc : Loader.Location) (outcome : Loader.FetchOutcome) (p : Loader.Page) :
  Loader.protocol loc <> lit "file:" ->
  is_Some (Loader.getElementById "createForm" p) ->
  Loader.timers p = [] ->
  (Loader.getUrlParam (lit "id") (Loader.search loc) = None
   \/ Loader.getUrlParam (lit "id") (Loader.search loc) = Some [] ->
   Loader.form_shown (Loader.run_timers (Loader.init loc outcome p)) = true)
  /\ (forall c id,
        Loader.getUrlParam (lit "id") (Loader.search loc) = Some (c :: id) ->
        fetch_fails outcome = true ->
        Loader.init loc outcome p = Loader.hideCreateForm p
        /\ Loader.form_shown (Loader.run_timers (Loader.init loc outcome p)) = false).
Proof.
  intros Hproto Hform Htimers. unfold Loader.init.
  destruct (decide (Loader.protocol loc = lit "file:")) as [|_]; [done|].
  split.
  - intros Hid.
    assert (Loader.run_timers (Loader.setTimeout Loader.ShowCreateForm 100 p)
            = Loader.showCreateForm p) as Hrun.
    { unfold Loader.run_timers, Loader.setTimeout. simpl. rewrite Htimers. simpl.
      unfold Loader.showCreateForm, Loader.set_form, Loader.getElementById. simpl.
      destruct p; simpl in *; subst.
      by destruct (List.find _ _). }
    destruct Hid as [-> | ->]; rewrite Hrun;
      unfold Loader.showCreateForm; by rewrite form_shown_set_form.
  - intros c id -> Hfail. rewrite (fetch_fails_null _ Hfail).
    split; [reflexivity|].
    assert (Loader.run_timers (Loader.hideCreateForm p) = Loader.hideCreateForm p)
      as ->.
    { unfold Loader.run_timers, Loader.hideCreateForm.
      destruct (set_form_display "none" false p Hform) as [_ ->].
      rewrite Htimers. simpl. unfold Loader.set_form, Loader.getElementById.
      destruct p; simpl in *; subst. by destruct (List.find _ _). }
    unfold Loader.hideCreateForm. by rewrite form_shown_set_form.
Qed.

Lemma loader_form_visibility_witness :
  let bare := Sample.location [] in
  let shared := Sample.location [(lit "id", lit "useandom")] in
  let lost := Loader.HttpResponse 404 None in
  (Loader.protocol bare <> lit "file:"
   /\ is_Some (Loader.getElementById "createForm" Sample.page)
   /\ Loader.timers Sample.page = []
   /\ fetch_fails lost = true)
  /\ Loader.form_shown (Loader.run_timers (Loader.init bare lost Sample.page)) = true
  /\ Loader.form_shown (Loader.run_timers (Loader.init shared lost Sample.page)) = false.
Proof.
  intros bare shared lost.
  assert (Hp : Loader.protocol bare <> lit "file:") by discriminate.
  assert (Hf : is_Some (Loader.getElementById "createForm" Sample.page))
    by (eexists; reflexivity).
  split; [by repeat split|]. split.
  - destruct (loader_form_visibility bare lost Sample.page Hp Hf eq_refl) as [Hshow _].
    apply Hshow. by left.
  - destruct (loader_form_visibility shared lost Sample.page Hp Hf eq_refl)
      as [_ Hhide].
    by destruct (Hhide _ _ eq_refl eq_refl) as [_ ?].
Defined.

(** C8 as stated fails: with an identifier in the URL the loader does
    not show the creation form when the fetch fails, whatever the
    failure; and a page opened from the file system shows no form
    either, identifier or not. *)
Lemma failed_fetch_leaves_form_hidden :
  let shared := Sample.location [(lit "id", lit "useandom")] in
  let after outcome := Loader.run_timers (Loader.init shared outcome Sample.page) in
  let local := Loader.mkLocation (lit "file:") [] in
  is_Some (Loader.getElementById "createForm" Sample.page)
  /\ Loader.form_shown (after Loader.NetworkError) = false
  /\ Loader.form_shown (after (Loader.HttpResponse 500 None)) = false
  /\ Loader.form_shown (after (Loader.HttpResponse 404 None)) = false
  /\ Loader.form_shown
       (Loader.run_timers (Loader.init local Loader.NetworkError Sample.page)) = false.
Proof. repeat split. eexists; reflexivity. Qed.


(** * Beyond the contract *)

(** ** Numbers as text *)

Lemma parse_digits_uint (d : Decimal.uint) (a : positive) :
  parse_digits 10 (lit (NilEmpty.string_of_uint d)) (Some (Z.pos a))
  = Some (Z.pos (Pos.of_uint_acc d a)).
Proof.
  revert a. unfold lit.
  induction d as [|d IH|d IH|d IH|d IH|d IH|d IH|d IH|d IH|d IH|d IH];
    intros a; simpl; [reflexivity | ..];
    match goal with
    | |- parse_digits _ _ (Some ?e) = Some (Z.pos (Pos.of_uint_acc _ ?b)) =>
        replace e with (Z.pos b) by lia
    end; apply IH.
Qed.

Lemma parse_digits_zero (d : Decimal.uint) :
  parse_digits 10 (lit (NilEmpty.string_of_uint d)) (Some 0)
  = Some (Z.of_N (Pos.of_uint d)).
Proof.
  induction d as [|d IH|d|d|d|d|d|d|d|d|d]; [reflexivity | exact IH | ..];
    apply (parse_digits_uint d).
Qed.

Lemma parse_digits_start (d : Decimal.uint) :
  d <> Decimal.Nil ->
  parse_digits 10 (lit (NilEmpty.string_of_uint d)) None
  = Some (Z.of_N (Pos.of_uint d)).
Proof.
  destruct d; [done | intros _ ..];
    solve [apply (parse_digits_zero (Decimal.D0 d)) | apply (parse_digits_uint d)].
Qed.

Ltac expose_digits :=
  repeat match goal with
    | H : context [lit (NilEmpty.string_of_uint (?D ?d))] |- _ =>
        let c := eval vm_compute in (lit (NilEmpty.string_of_uint (D Decimal.Nil))) in
        match c with
        | [?k] =>
            change (lit (NilEmpty.string_of_uint (D d)))
              with (k :: lit (NilEmpty.string_of_uint d)) in *
        end
    end.

(** Reading back a printed natural number, with or without a sign. *)
Lemma parseInt_decimal (d : Decimal.uint) :
  d <> Decimal.Nil ->
  parseInt (JStr (lit (NilEmpty.string_of_uint d))) = Some (Z.of_N (Pos.of_uint d))
  /\ parseInt (JStr (45%N :: lit (NilEmpty.string_of_uint d)))
     = Some (- Z.of_N (Pos.of_uint d)).
Proof.
  intros Hd. pose proof (parse_digits_start d Hd) as Hp.
  unfold parseInt.
  destruct d as [|d|d|d|d|d|d|d|d|d|d]; [done | ..].
  1: destruct d.
  all: expose_digits;
    try change (lit (NilEmpty.string_of_uint Decimal.Nil)) with (@nil N) in *;
    split; cbn -[parse_digits Z.mul Pos.of_uint Z.of_N lit]; rewrite Hp; f_equal; lia.
Qed.

(** [parseInt] of a number gives the number back. *)
Lemma parseInt_number (n : Z) : parseInt (JNum n) = Some n.
Proof.
  change (parseInt (JNum n)) with (parseInt (JStr (string_of_Z n))).
  unfold string_of_Z, NilZero.string_of_int, Z.to_int.
  destruct n as [|p|p]; [reflexivity | ..];
    pose proof (Unsigned.to_uint_nonnil p) as Hn;
    destruct (parseInt_decimal (Pos.to_uint p) Hn) as [Hpos Hneg];
    rewrite (Unsigned.of_to p) in Hpos, Hneg.
  - unfold NilZero.string_of_uint.
    destruct (Pos.to_uint p) eqn:E; [done | exact Hpos ..].
  - unfold NilZero.string_of_uint.
    destruct (Pos.to_uint p) eqn:E; [done | exact Hneg ..].
Qed.

Lemma parseInt10_decimal (d : Decimal.uint) :
  d <> Decimal.Nil ->
  parseInt10 (JStr (lit (NilEmpty.string_of_uint d))) = Some (Z.of_N (Pos.of_uint d))
  /\ parseInt10 (JStr (45%N :: lit (NilEmpty.string_of_uint d)))
     = Some (- Z.of_N (Pos.of_uint d)).
Proof.
  intros Hd. pose proof (parse_digits_start d Hd) as Hp.
  unfold parseInt10.
  destruct d as [|d|d|d|d|d|d|d|d|d|d]; [done | ..].
  all: expose_digits;
    split; cbn -[parse_digits Z.mul Pos.of_uint Z.of_N lit]; rewrite Hp; f_equal; lia.
Qed.

(** [parseInt(v, 10)] of a number gives the number back as well. *)
Lemma parseInt10_number (n : Z) : parseInt10 (JNum n) = Some n.
Proof.
  change (parseInt10 (JNum n)) with (parseInt10 (JStr (string_of_Z n))).
  unfold string_of_Z, NilZero.string_of_int, Z.to_int.
  destruct n as [|p|p]; [reflexivity | ..];
    pose proof (Unsigned.to_uint_nonnil p) as Hn;
    destruct (parseInt10_decimal (Pos.to_uint p) Hn) as [Hpos Hneg];
    rewrite (Unsigned.of_to p) in Hpos, Hneg.
  - unfold NilZero.string_of_uint.
    destruct (Pos.to_uint p) eqn:E; [done | exact Hpos ..].
  - unfold NilZero.string_of_uint.
    destruct (Pos.to_uint p) eqn:E; [done | exact Hneg ..].
Qed.

(** ** What a request does to the store *)

(** X1.  No request sends more than one query: after either handler the
    trace is the one before, or the one before with one query added. *)
Theorem one_query_per_request (amb : Ambient) (req : Request) (w : World) :
  (exists qs, queries (Create.handler amb req w).2 = queries w ++ qs
              /\ (length qs <= 1)%nat)
  /\ (exists qs, queries (Get.handler req w).2 = queries w ++ qs
                 /\ (length qs <= 1)%nat).
Proof.
  assert (Hnone : forall w0 : World,
             exists qs, queries w0 = queries w0 ++ qs /\ (length qs <= 1)%nat).
  { intros w0. exists []. rewrite app_nil_r. split; [done | simpl; lia]. }
  split.
  - unfold Create.handler.
    destruct (negb (String.eqb (method req) "POST")); [apply Hnone|].
    unfold try_catch, Create.try_block, bind, eval, ret, await.
    destruct (Create.destructure (body req)) as [o|]; [|apply Hnone].
    repeat (match goal with |- context [if ?b then _ else _] => destruct b end;
            [apply Hnone|]).
    destruct (call_trim (own o (lit "sender"))); [|apply Hnone].
    destruct (call_trim (own o (lit "receiver"))); [|apply Hnone].
    destruct (Create.message_or_empty _); [|apply Hnone].
    unfold insert.
    destruct (negb (check_constraints _)); [|destruct (table w !! _)];
      simpl; eexists; (split; [reflexivity | simpl; lia]).
  - unfold Get.handler.
    destruct (negb (String.eqb (method req) "GET")); [apply Hnone|].
    unfold try_catch, Get.try_block, bind, ret, await, select_single.
    destruct (negb (truthy (query_id req))); [apply Hnone|].
    destruct (negb (Get.id_regex_test (query_id req))); [apply Hnone|].
    destruct (table w !! to_string (query_id req)); simpl;
      eexists; (split; [reflexivity | simpl; lia]).
Qed.

Lemma create_table_unless_201 (amb : Ambient) (req : Request) (w : World) :
  status (Create.handler amb req w).1 <> 201 ->
  table (Create.handler amb req w).2 = table w.
Proof.
  unfold Create.handler.
  destruct (negb (String.eqb (method req) "POST")); [done|].
  unfold try_catch, Create.try_block, bind, eval, ret, await.
  destruct (Create.destructure (body req)) as [o|]; [|done].
  repeat (match goal with |- context [if ?b then _ else _] => destruct b end;
          [done|]).
  destruct (call_trim (own o (lit "sender"))); [|done].
  destruct (call_trim (own o (lit "receiver"))); [|done].
  destruct (Create.message_or_empty _); [|done].
  unfold insert.
  destruct (negb (check_constraints _)); [done|].
  destruct (table w !! _); [done|]. simpl. done.
Qed.

(** The fields of an accepted body are within the bounds of the
    boundary. *)
Lemma create_201_bounds (amb : Ambient) (req : Request) (w : World) :
  status (Create.handler amb req w).1 = 201 ->
  exists o s r,
    body req = Some o
    /\ own o (lit "sender") = JStr s
    /\ own o (lit "receiver") = JStr r
    /\ (0 < length s <= 100)%nat
    /\ (0 < length r <= 100)%nat
    /\ (length (stored_text (own o (lit "message"))) <= 500)%nat.
Proof.
  unfold Create.handler.
  destruct (negb (String.eqb (method req) "POST")); [discriminate|].
  unfold try_catch, Create.try_block, bind, eval, ret, await.
  destruct (body req) as [o|] eqn:Hb; [|discriminate]. cbn [Create.destructure].
  destruct (negb (truthy (own o (lit "sender"))) || negb (truthy (own o (lit "receiver"))))
    eqn:Ht; [discriminate|].
  destruct (greater_than (length_of (own o (lit "sender"))) _) eqn:Hs; [discriminate|].
  destruct (greater_than (length_of (own o (lit "receiver"))) _) eqn:Hr; [discriminate|].
  destruct (truthy (own o (lit "message")) && _) eqn:Hm; [discriminate|].
  destruct (call_trim (own o (lit "sender"))) as [s'|] eqn:Es; [|discriminate].
  destruct (call_trim (own o (lit "receiver"))) as [r'|] eqn:Er; [|discriminate].
  destruct (Create.message_or_empty _) as [m'|] eqn:Em; [|discriminate].
  intros _.
  apply call_trim_inv in Es as [[s Es] _]. apply call_trim_inv in Er as [[r Er] _].
  exists o, s, r. rewrite Es, Er in *.
  unfold Create.MAX_NAME_LENGTH, Create.MAX_MESSAGE_LENGTH in *.
  repeat split; try done.
  - destruct s; [discriminate | simpl; lia].
  - simpl in Hs. lia.
  - destruct r; [by rewrite orb_true_r in Ht | simpl; lia].
  - simpl in Hr. lia.
  - destruct (own o (lit "message")) as [| | | |m|]; simpl; try lia.
    pose proof (trim_length m). destruct m; simpl in *; lia.
Qed.

(** X2.  A create changes the table only when it answers 201, and then
    by one new row, filed under the drawn identifier, which was free. *)
Theorem create_changes_the_table_only_on_201
  (amb : Ambient) (req : Request) (w : World) :
  (status (Create.handler amb req w).1 <> 201 ->
   table (Create.handler amb req w).2 = table w)
  /\ (status (Create.handler amb req w).1 = 201 ->
      table w !! drawn_id amb = None
      /\ exists row,
          table (Create.handler amb req w).2 = <[drawn_id amb := row]> (table w)
          /\ size (table (Create.handler amb req w).2) = S (size (table w))).
Proof.
  split; [apply create_table_unless_201|]. intros H.
  destruct (create_201_inv amb req w H) as (o & _ & _ & _ & _ & Hfree & ->).
  split; [exact Hfree|]. eexists. split; [reflexivity|].
  simpl. by apply map_size_insert_None.
Qed.

Lemma create_changes_the_table_only_on_201_witness :
  let good := Sample.post (Sample.names "Ann" "Bob") in
  let bad := Sample.post (Sample.names "Ann" "") in
  let run req := Create.handler (Sample.ambient 0) req Sample.empty_world in
  (status (run bad).1 <> 201 /\ status (run good).1 = 201)
  /\ table (run bad).2 = table Sample.empty_world
  /\ size (table (run good).2) = 1%nat.
Proof.
  intros good bad run.
  assert (Hb : status (run bad).1 <> 201) by discriminate.
  assert (Hg : status (run good).1 = 201) by reflexivity.
  split; [by split|]. split.
  - destruct (create_changes_the_table_only_on_201 (Sample.ambient 0) bad
                Sample.empty_world) as [Hkeep _].
    exact (Hkeep Hb).
  - destruct (create_changes_the_table_only_on_201 (Sample.ambient 0) good
                Sample.empty_world) as [_ Hadd].
    destruct (Hadd Hg) as (_ & row & _ & Hsize). exact Hsize.
Defined.

(** X3.  No retry on a collision: when the drawn identifier is already
    a key, a body that passes the boundary is answered with 500, and the
    row that was there is still what get returns. *)
Theorem collision_is_answered_500
  (amb : Ambient) (req greq : Request) (o : JsObject) (w : World) (row : Row) :
  method req = "POST"%string ->
  body req = Some o ->
  valid_name (own o (lit "sender")) = true ->
  valid_name (own o (lit "receiver")) = true ->
  valid_message (own o (lit "message")) = true ->
  table w !! drawn_id amb = Some row ->
  method greq = "GET"%string ->
  query_id greq = JStr (drawn_id amb) ->
  status (Create.handler amb req w).1 = 500
  /\ (Get.handler greq (Create.handler amb req w).2).1
     = mkResponse 200 (Some "s-maxage=3600, stale-while-revalidate"%string)
         (Greeting (project row)).
Proof.
  intros Hm Hb Hs Hr Hmsg Htaken Hgm Hgq.
  rewrite (get_answers greq (drawn_id amb) _ Hgm Hgq (drawn_id_well_formed amb)).
  destruct (create_submits amb req o w Hm Hb Hs Hr Hmsg) as [_ ->].
  destruct (insert_taken_is_refused (now amb) (submitted amb o) w) as [[e He] Ht].
  { change (ng_id (submitted amb o)) with (drawn_id amb). by rewrite Htaken. }
  destruct (insert _ _ w) as [[e'|] w']; simpl in *; [|discriminate].
  by rewrite Ht, Htaken.
Qed.

Lemma collision_is_answered_500_witness :
  let first := Sample.post (Sample.names "Ann" "Bob") in
  let second := Sample.post (Sample.names "Cleo" "Dan") in
  let w := Sample.after_create (Sample.ambient 0) first Sample.empty_world in
  let greq := Sample.get (JStr (drawn_id (Sample.ambient 0))) in
  is_Some (table w !! drawn_id (Sample.ambient 0))
  /\ status (Create.handler (Sample.ambient 0) second w).1 = 500
  /\ (Get.handler greq (Create.handler (Sample.ambient 0) second w).2).1
     = mkResponse 200 (Some "s-maxage=3600, stale-while-revalidate"%string)
         (Greeting (mkSelected (lit "Ann") (lit "Bob") [] (Some 0) 1700000000)).
Proof.
  intros first second w greq. split; [eexists; reflexivity|].
  exact (collision_is_answered_500 (Sample.ambient 0) second greq
           (Sample.names "Cleo" "Dan") w
           (mkRow (drawn_id (Sample.ambient 0)) (lit "Ann") (lit "Bob") []
              (Some 0) 1700000000)
           eq_refl eq_refl eq_refl eq_refl eq_refl eq_refl eq_refl eq_refl).
Defined.

(** X4.  A name that is not a string is never stored: when the sender
    or the receiver of a POST body is not a string, the answer is 400 or
    500 and the world is left as it was. *)
Theorem non_string_name_is_never_stored
  (amb : Ambient) (req : Request) (o : JsObject) (w : World) :
  method req = "POST"%string ->
  body req = Some o ->
  (forall s, own o (lit "sender") <> JStr s)
  \/ (forall r, own o (lit "receiver") <> JStr r) ->
  (status (Create.handler amb req w).1 = 400
   \/ status (Create.handler amb req w).1 = 500)
  /\ (Create.handler amb req w).2 = w.
Proof.
  intros Hm Hb Hnot. unfold Create.handler. rewrite Hm.
  cbn [String.eqb Ascii.eqb Bool.eqb negb].
  unfold try_catch, Create.try_block, bind, eval, ret, await.
  rewrite Hb. cbn [Create.destructure].
  repeat (match goal with |- context [if ?b then _ else _] => destruct b end;
          [by auto|]).
  destruct (call_trim (own o (lit "sender"))) as [s'|] eqn:Es; [|by auto].
  destruct (call_trim (own o (lit "receiver"))) as [r'|] eqn:Er; [|by auto].
  apply call_trim_inv in Es as [[s Es] _]. apply call_trim_inv in Er as [[r Er] _].
  destruct Hnot as [Hn | Hn]; [by destruct (Hn s) | by destruct (Hn r)].
Qed.

Lemma non_string_name_is_never_stored_witness :
  let o := [(lit "sender", JNum 7); (lit "receiver", JStr (lit "Bob"))] in
  (forall s, own o (lit "sender") <> JStr s)
  /\ status (Create.handler (Sample.ambient 0) (Sample.post o) Sample.empty_world).1
     = 500
  /\ (Create.handler (Sample.ambient 0) (Sample.post o) Sample.empty_world).2
     = Sample.empty_world.
Proof.
  intros o.
  assert (Hn : forall s, own o (lit "sender") <> JStr s) by (intros s; discriminate).
  split; [exact Hn|].
  destruct (non_string_name_is_never_stored (Sample.ambient 0) (Sample.post o) o
              Sample.empty_world eq_refl eq_refl (or_introl Hn)) as [_ Hw].
  split; [reflexivity | exact Hw].
Defined.

(** X5.  The identifier of a 201 response has eight characters and
    passes the check of the get handler, and the URL of the response is
    built on it. *)
Theorem created_identifier_is_well_formed
  (amb : Ambient) (req : Request) (w : World) :
  status (Create.handler amb req w).1 = 201 ->
  exists id,
    payload (Create.handler amb req w).1 = Created id (Create.share_url req id)
    /\ length id = 8%nat
    /\ Get.id_regex_test (JStr id) = true
    /\ exists origin, Create.share_url req id = origin ++ lit "/?id=" ++ id.
Proof.
  intros H.
  destruct (create_201_inv amb req w H) as (o & _ & _ & _ & _ & _ & ->).
  exists (drawn_id amb). split; [reflexivity|]. split; [apply nanoid_length|].
  split; [apply drawn_id_well_formed|].
  unfold Create.share_url. eexists. rewrite !app_assoc. reflexivity.
Qed.

Lemma created_identifier_is_well_formed_witness :
  let created := Create.handler (Sample.ambient 0)
                   (Sample.post (Sample.names "Ann" "Bob")) Sample.empty_world in
  status created.1 = 201
  /\ exists id, payload created.1
                = Created id (Create.share_url (Sample.post (Sample.names "Ann" "Bob")) id)
                /\ length id = 8%nat.
Proof.
  intros created.
  assert (H : status created.1 = 201) by reflexivity.
  split; [exact H|].
  destruct (created_identifier_is_well_formed (Sample.ambient 0)
              (Sample.post (Sample.names "Ann" "Bob")) Sample.empty_world H)
    as (id & Hp & Hl & _).
  exists id. by split.
Defined.

(** X6.  The bounds hold at the store: if every row of the table is
    filed under its own identifier with a sender and receiver of at most
    100 code units and a message of at most 500, the same is true after
    any number of requests to the two endpoints. *)
Theorem served_table_stays_within_bounds (w w' : World) :
  table_within_bounds w -> serves w w' -> table_within_bounds w'.
Proof.
  intros Hw Hs.
  induction Hs as [w|amb req w w' _ IH|req w w' _ IH]; [done | |].
  - specialize (IH Hw).
    destruct (decide (status (Create.handler amb req w').1 = 201)) as [H|H].
    + destruct (create_201_bounds amb req w' H)
        as (o & s & r & Hb & Es & Er & Hsl & Hrl & Hml).
      destruct (create_201_inv amb req w' H) as (o' & _ & Hb' & _ & _ & _ & ->).
      assert (o' = o) as -> by congruence.
      intros id row. cbn [snd table].
      destruct (decide (drawn_id amb = id)) as [<-|Hne].
      * rewrite lookup_insert_eq. intros [= <-].
        unfold row_within_bounds, row_of, submitted.
        cbn [row_id row_sender row_receiver row_message
             ng_id ng_sender ng_receiver ng_message].
        rewrite Es, Er. cbn [stored_text].
        pose proof (trim_length s). pose proof (trim_length r).
        repeat split; [lia | lia | exact Hml].
      * rewrite lookup_insert_ne by done. apply IH.
    + intros id row. rewrite (create_table_unless_201 amb req w' H). apply IH.
  - intros id row. rewrite get_keeps_table. by apply IH.
Qed.

Lemma served_table_stays_within_bounds_witness :
  let w := Sample.after_create (Sample.ambient 0)
             (Sample.post (Sample.names "  Ann " "Bob")) Sample.empty_world in
  table_within_bounds Sample.empty_world
  /\ serves Sample.empty_world w
  /\ table_within_bounds w.
Proof.
  intros w.
  assert (H0 : table_within_bounds Sample.empty_world).
  { intros id row Hrow. simpl in Hrow. by rewrite lookup_empty in Hrow. }
  assert (Hs : serves Sample.empty_world w) by apply serves_create, serves_none.
  split; [exact H0|]. split; [exact Hs|].
  exact (served_table_stays_within_bounds Sample.empty_world w H0 Hs).
Defined.

(** The answer of the get handler depends on the table only. *)
Lemma get_reads_the_table (req : Request) (w w' : World) :
  table w = table w' -> (Get.handler req w).1 = (Get.handler req w').1.
Proof.
  intros E. unfold Get.handler.
  destruct (negb (String.eqb (method req) "GET")); [done|].
  unfold try_catch, Get.try_block, bind, ret, await, select_single.
  destruct (negb (truthy (query_id req))); [done|].
  destruct (negb (Get.id_regex_test (query_id req))); [done|].
  rewrite E. by destruct (table w' !! to_string (query_id req)).
Qed.

(** X7.  The get handler is read-only and repeatable: it leaves the
    table as it was, and the same request served again is answered the
    same, also after other gets. *)
Theorem get_is_read_only_and_repeatable (req other : Request) (w : World) :
  table (Get.handler req w).2 = table w
  /\ (Get.handler req (Get.handler req w).2).1 = (Get.handler req w).1
  /\ (Get.handler req (Get.handler other w).2).1 = (Get.handler req w).1.
Proof.
  split; [apply get_keeps_table|].
  split; apply get_reads_the_table, get_keeps_table.
Qed.

(** X8.  The get handler sets the Cache-Control header on its 200
    response and on no other. *)
Theorem cache_header_only_on_200 (req : Request) (w : World) :
  (status (Get.handler req w).1 = 200 ->
   cache_control (Get.handler req w).1
   = Some "s-maxage=3600, stale-while-revalidate"%string)
  /\ (status (Get.handler req w).1 <> 200 ->
      cache_control (Get.handler req w).1 = None).
Proof.
  unfold Get.handler.
  destruct (negb (String.eqb (method req) "GET")); [by split|].
  unfold try_catch, Get.try_block, bind, ret, await, select_single.
  destruct (negb (truthy (query_id req))); [by split|].
  destruct (negb (Get.id_regex_test (query_id req))); [by split|].
  destruct (table w !! to_string (query_id req)); by split.
Qed.

Lemma cache_header_only_on_200_witness :
  let w := Sample.after_create (Sample.ambient 0)
             (Sample.post (Sample.names "Ann" "Bob")) Sample.empty_world in
  let hit := Sample.get (JStr (drawn_id (Sample.ambient 0))) in
  let miss := Sample.get (JStr (lit "nobody-1")) in
  (status (Get.handler hit w).1 = 200 /\ status (Get.handler miss w).1 <> 200)
  /\ cache_control (Get.handler hit w).1
     = Some "s-maxage=3600, stale-while-revalidate"%string
  /\ cache_control (Get.handler miss w).1 = None.
Proof.
  intros w hit miss.
  assert (Hh : status (Get.handler hit w).1 = 200) by reflexivity.
  assert (Hm : status (Get.handler miss w).1 <> 200) by discriminate.
  split; [by split|]. split.
  - destruct (cache_header_only_on_200 hit w) as [H _]. exact (H Hh).
  - destruct (cache_header_only_on_200 miss w) as [_ H]. exact (H Hm).
Defined.

Lemma joined_array_holds_a_comma (a b : JsValue) (l : list JsValue) :
  In 44%N (to_string (JArr (a :: b :: l))).
Proof.
  cbn [to_string]. apply in_or_app. right. apply in_or_app. left. by left.
Qed.

(** X9.  A repeated id parameter reaches the handler as an array of at
    least two values; it is answered with status 400 and no query is
    sent, whatever the values are. *)
Theorem repeated_id_parameter_is_rejected
  (req : Request) (a b : JsValue) (l : list JsValue) (w : World) :
  method req = "GET"%string ->
  query_id req = JArr (a :: b :: l) ->
  Get.handler req w
  = (respond 400 (ErrorMessage "Invalid ID" "Greeting ID contains invalid characters"),
     w).
Proof.
  intros Hm Hq.
  unfold Get.handler, try_catch, Get.try_block, bind, ret.
  rewrite Hm, Hq. cbn [String.eqb Ascii.eqb Bool.eqb negb truthy].
  by rewrite (regexp_refuses _ 44%N (joined_array_holds_a_comma a b l) eq_refl).
Qed.

Lemma repeated_id_parameter_is_rejected_witness :
  let w := Sample.after_create (Sample.ambient 0)
             (Sample.post (Sample.names "Ann" "Bob")) Sample.empty_world in
  let twice := JArr [JStr (drawn_id (Sample.ambient 0));
                     JStr (drawn_id (Sample.ambient 0))] in
  status (Get.handler (Sample.get twice) w).1 = 400
  /\ (Get.handler (Sample.get twice) w).2 = w.
Proof.
  intros w twice.
  rewrite (repeated_id_parameter_is_rejected (Sample.get twice) _ _ [] w
             eq_refl eq_refl).
  by split.
Defined.

(** X10.  A stored greeting is immutable: whatever requests are served
    afterwards, a get with its identifier returns the same five
    fields. *)
Theorem stored_greeting_is_immutable
  (req : Request) (id : jsstring) (row : Row) (w w' : World) :
  method req = "GET"%string ->
  query_id req = JStr id ->
  Get.id_regex_test (JStr id) = true ->
  table w !! id = Some row ->
  serves w w' ->
  (Get.handler req w').1 = (Get.handler req w).1
  /\ (Get.handler req w').1
     = mkResponse 200 (Some "s-maxage=3600, stale-while-revalidate"%string)
         (Greeting (project row)).
Proof.
  intros Hm Hq Hre Hrow Hs.
  pose proof (serves_keeps_rows w w' Hs id row Hrow) as Hrow'.
  rewrite (get_answers req id w Hm Hq Hre), (get_answers req id w' Hm Hq Hre).
  cbn [fst]. by rewrite Hrow, Hrow'.
Qed.

Lemma stored_greeting_is_immutable_witness :
  let w := Sample.after_create (Sample.ambient 0)
             (Sample.post (Sample.names "Ann" "Bob")) Sample.empty_world in
  let w' := Sample.after_create (Sample.ambient 0)
              (Sample.post (Sample.names "Cleo" "Dan"))
              (Sample.after_create (Sample.ambient 5)
                 (Sample.post (Sample.names "Eve" "Finn")) w) in
  let req := Sample.get (JStr (drawn_id (Sample.ambient 0))) in
  serves w w'
  /\ (Get.handler req w').1
     = mkResponse 200 (Some "s-maxage=3600, stale-while-revalidate"%string)
         (Greeting (mkSelected (lit "Ann") (lit "Bob") [] (Some 0) 1700000000)).
Proof.
  intros w w' req.
  assert (Hs : serves w w') by apply serves_create, serves_create, serves_none.
  split; [exact Hs|].
  destruct (stored_greeting_is_immutable req (drawn_id (Sample.ambient 0))
              (mkRow (drawn_id (Sample.ambient 0)) (lit "Ann") (lit "Bob") []
                 (Some 0) 1700000000) w w' eq_refl eq_refl eq_refl eq_refl Hs)
    as [_ H].
  exact H.
Defined.

(** X11.  A day_index supplied as a number is stored as that number:
    after an accepted create whose body holds the integer [n] (a safe
    integer, below 2^53 in absolute value), the row has day_index
    [n]. *)
Theorem numeric_day_index_is_stored
  (amb : Ambient) (req : Request) (o : JsObject) (n : Z) (w : World) :
  body req = Some o ->
  own o (lit "day_index") = JNum n ->
  Z.abs n < 2 ^ 53 ->
  status (Create.handler amb req w).1 = 201 ->
  row_day_index <$> (table (Create.handler amb req w).2 !! drawn_id amb) = Some (Some n).
Proof.
  intros Hb Hd _ H.
  destruct (create_201_inv amb req w H) as (o' & _ & Hb' & _ & _ & _ & ->).
  assert (o' = o) as -> by congruence.
  cbn [snd table]. rewrite lookup_insert_eq.
  unfold row_of, submitted. cbn [fmap option_fmap option_map row_day_index ng_day_index].
  rewrite Hd. cbn [Create.day_index_or_zero]. by rewrite parseInt_number.
Qed.

Lemma numeric_day_index_is_stored_witness :
  let o := Sample.with_field "day_index" (JNum 6) (Sample.names "Ann" "Bob") in
  let created := Create.handler (Sample.ambient 0) (Sample.post o) Sample.empty_world in
  (Z.abs 6 < 2 ^ 53 /\ status created.1 = 201)
  /\ row_day_index <$> (table created.2 !! drawn_id (Sample.ambient 0))
     = Some (Some 6).
Proof.
  intros o created.
  assert (Hn : Z.abs 6 < 2 ^ 53) by reflexivity.
  assert (H : status created.1 = 201) by reflexivity.
  split; [by split|].
  exact (numeric_day_index_is_stored (Sample.ambient 0) (Sample.post o) o 6
           Sample.empty_world eq_refl eq_refl Hn H).
Defined.

(** ** The page: rendering *)

Lemma digits_of_uint (d : Decimal.uint) (c : N) :
  In c (lit (NilEmpty.string_of_uint d)) -> (48 <= c <= 57)%N.
Proof.
  induction d; simpl; [done | ..]; (intros [<- | H]; [lia | by apply IHd]).
Qed.

Lemma string_of_Z_chars (n : Z) (c : N) :
  In c (string_of_Z n) -> c = 45%N \/ (48 <= c <= 57)%N.
Proof.
  unfold string_of_Z, NilZero.string_of_int, Z.to_int, NilZero.string_of_uint.
  destruct n as [|p|p]; simpl.
  - intros [<- | []]. right. lia.
  - destruct (Pos.to_uint p) eqn:E; try (intros H; right; revert H; apply digits_of_uint).
    simpl. intros [<- | []]. right. lia.
  - intros [<- | H]; [by left|]. right. revert H.
    destruct (Pos.to_uint p) eqn:E; try apply digits_of_uint.
    simpl. intros [<- | []]. lia.
Qed.

Lemma escapeHtml_no_bracket (text : JsValue) (c : N) :
  c = 60%N \/ c = 62%N -> ~ In c (Loader.escapeHtml text).
Proof.
  intros Hc. unfold Loader.escapeHtml. rewrite in_flat_map.
  intros (x & _ & Hin).
  destruct (x =? 38)%N eqn:E1; [simpl in Hin; intuition lia|].
  destruct (x =? 60)%N eqn:E2; [simpl in Hin; intuition lia|].
  destruct (x =? 62)%N eqn:E3; [simpl in Hin; intuition lia|].
  destruct (x =? 160)%N eqn:E4; [simpl in Hin; intuition lia|].
  simpl in Hin. intuition lia.
Qed.

Lemma escapeHtml_brackets (text : JsValue) :
  occurrences 60 (Loader.escapeHtml text) = 0%nat
  /\ occurrences 62 (Loader.escapeHtml text) = 0%nat.
Proof. split; apply count_occ_not_In, escapeHtml_no_bracket; auto. Qed.

(** X12.  [escapeHtml] returns no markup: whatever the text, its result
    holds neither [<] nor [>]. *)
Theorem escapeHtml_returns_no_markup (text : JsValue) :
  ~ In 60%N (Loader.escapeHtml text)
  /\ ~ In 62%N (Loader.escapeHtml text)
  /\ occurrences 60 (Loader.escapeHtml text) = 0%nat
  /\ occurrences 62 (Loader.escapeHtml text) = 0%nat.
Proof.
  destruct (escapeHtml_brackets text) as [E1 E2].
  repeat split; try done; apply escapeHtml_no_bracket; auto.
Qed.

Lemma occurrences_app (c : N) (s t : jsstring) :
  occurrences c (s ++ t) = (occurrences c s + occurrences c t)%nat.
Proof. apply count_occ_app. Qed.

Lemma occurrences_none (c : N) (s : jsstring) :
  ~ In c s -> occurrences c s = 0%nat.
Proof. apply count_occ_not_In. Qed.

Lemma string_of_Z_no_bracket (n : Z) (c : N) :
  c = 60%N \/ c = 62%N -> occurrences c (string_of_Z n) = 0%nat.
Proof.
  intros Hc. apply occurrences_none. intros Hin.
  apply string_of_Z_chars in Hin. lia.
Qed.

Lemma memory_lines_brackets (index : Z) (ms : list JsValue) :
  occurrences 60 (Loader.memory_lines index ms) = (2 * length ms)%nat
  /\ occurrences 62 (Loader.memory_lines index ms) = (2 * length ms)%nat.
Proof.
  revert index. induction ms as [|m ms IH]; intros index; [done|].
  destruct (IH (index + 1)) as [IH1 IH2].
  destruct (escapeHtml_brackets m) as [E1 E2].
  cbn [Loader.memory_lines length]. rewrite !occurrences_app, IH1, IH2, E1, E2.
  rewrite !string_of_Z_no_bracket by auto. split; reflexivity || (simpl; lia).
Qed.

Lemma find_update_first_by_id
  (id : string) (f : Loader.Element -> Loader.Element) (els : list Loader.Element) :
  (forall e, Loader.el_id (f e) = Loader.el_id e) ->
  List.find (fun e => String.eqb (Loader.el_id e) id)
    (Loader.update_first (fun e => String.eqb (Loader.el_id e) id) f els)
  = f <$> List.find (fun e => String.eqb (Loader.el_id e) id) els.
Proof.
  intros Hid. induction els as [|e els IH]; [reflexivity|]. simpl.
  destruct (String.eqb (Loader.el_id e) id) eqn:He; simpl.
  - by rewrite Hid, He.
  - by rewrite He.
Qed.

(** X13.  The memories are rendered as one paragraph each and nothing
    else: when the page has the [stage4] element and the data hold a
    non-empty array of memories, the markup written into the element has
    two [<] and two [>] per memory, whatever the memories contain. *)
Theorem memories_render_one_paragraph_each
  (m : JsValue) (ms : list JsValue) (p : Loader.Page) :
  is_Some (Loader.getElementById "stage4" p) ->
  exists e h,
    Loader.getElementById "stage4" (Loader.populateMemories (JArr (m :: ms)) p)
    = Some e
    /\ Loader.el_inner e = Loader.InnerHTML h
    /\ h = Loader.memory_lines 0 (m :: ms)
    /\ occurrences 60 h = (2 * length (m :: ms))%nat
    /\ occurrences 62 h = (2 * length (m :: ms))%nat.
Proof.
  intros [e He]. unfold Loader.populateMemories. rewrite He.
  unfold Loader.getElementById in *. cbn [Loader.with_elements Loader.elements].
  rewrite find_update_first_by_id by done. rewrite He.
  destruct (memory_lines_brackets 0 (m :: ms)) as [H1 H2].
  eexists _, _. repeat split; [exact H1 | exact H2].
Qed.

Lemma memories_render_one_paragraph_each_witness :
  let stage := Loader.mkElement "stage4" [] [] (Loader.TextContent []) [] in
  let p := Loader.mkPage [Sample.form_element; stage] [] false None false [] [] in
  let ms := [JStr (lit "<b>first</b>"); JStr (lit "a > b & c")] in
  is_Some (Loader.getElementById "stage4" p)
  /\ exists e h,
      Loader.getElementById "stage4" (Loader.populateMemories (JArr ms) p) = Some e
      /\ Loader.el_inner e = Loader.InnerHTML h
      /\ occurrences 60 h = 4%nat.
Proof.
  intros stage p ms.
  assert (Hs : is_Some (Loader.getElementById "stage4" p)) by (eexists; reflexivity).
  split; [exact Hs|].
  destruct (memories_render_one_paragraph_each (JStr (lit "<b>first</b>"))
              [JStr (lit "a > b & c")] p Hs) as (e & h & He & Hi & _ & H60 & _).
  exists e, h. repeat split; assumption.
Defined.

(** ** The page: what populating leaves alone

    On the flat document of the model, populating a greeting keeps the
    layout; the lemmas serve the visibility of the creation form. *)

Lemma layout_update_first
  (test : Loader.Element -> bool) (f : Loader.Element -> Loader.Element)
  (els : list Loader.Element) :
  (forall e, (Loader.el_id (f e), Loader.el_marks (f e), Loader.el_display (f e))
             = (Loader.el_id e, Loader.el_marks e, Loader.el_display e)) ->
  List.map (fun e => (Loader.el_id e, Loader.el_marks e, Loader.el_display e))
    (Loader.update_first test f els)
  = List.map (fun e => (Loader.el_id e, Loader.el_marks e, Loader.el_display e)) els.
Proof.
  intros Hf. induction els as [|e els IH]; [reflexivity|]. simpl.
  destruct (test e); simpl; [by rewrite Hf | by rewrite IH].
Qed.

Lemma frame_safeSetText (sel : list string) (text : JsValue) (p : Loader.Page) :
  frame (Loader.safeSetText sel text p) = frame p.
Proof.
  unfold frame, layout, Loader.safeSetText. simpl. rewrite List.map_map.
  do 3 f_equal. apply map_ext. intros e. by destruct (Loader.selects sel e).
Qed.

Lemma frame_set_text_by_id (id : string) (t : jsstring) (p : Loader.Page) :
  frame (Loader.set_text_by_id id t p) = frame p.
Proof.
  unfold frame, layout, Loader.set_text_by_id. simpl.
  by rewrite layout_update_first.
Qed.

Lemma frame_populateMemories (v : JsValue) (p : Loader.Page) :
  frame (Loader.populateMemories v p) = frame p.
Proof.
  unfold Loader.populateMemories.
  destruct v as [| | | | |[|m ms]]; try done.
  destruct (Loader.getElementById "stage4" p); [|done].
  unfold frame, layout. simpl. by rewrite layout_update_first.
Qed.

Lemma frame_when_truthy
  (v : JsValue) (step : JsValue -> Loader.Page -> Loader.Page) (p : Loader.Page) :
  (forall q, frame (step v q) = frame q) ->
  frame (Loader.when_truthy v step p) = frame p.
Proof. intros H. unfold Loader.when_truthy. by destruct (truthy v). Qed.

Lemma frame_updateMetaTags (data : JsObject) (p : Loader.Page) :
  frame (Loader.updateMetaTags data p) = frame p.
Proof.
  unfold frame, layout, Loader.updateMetaTags. simpl.
  by rewrite !layout_update_first.
Qed.

Lemma frame_populateGreeting (data : JsObject) (p : Loader.Page) :
  frame (Loader.populateGreeting data p) = frame p.
Proof.
  unfold Loader.populateGreeting.
  match goal with
  | |- frame (match Loader.config ?q with _ => _ end) = _ =>
      transitivity (frame q); [by destruct (Loader.config q)|]
  end.
  rewrite frame_updateMetaTags.
  repeat (rewrite frame_when_truthy;
          [| intros q; first [ apply frame_safeSetText
                             | apply frame_populateMemories
                             | apply frame_set_text_by_id
                             | by rewrite frame_set_text_by_id, frame_safeSetText ]]).
  reflexivity.
Qed.

(** X15.  [fetchGreeting] returns data exactly when the response has a
    status from 200 to 299 and a body that parses, and then it returns
    that body. *)
Theorem fetchGreeting_returns_only_a_parsed_2xx
  (outcome : Loader.FetchOutcome) (data : JsObject) :
  Loader.fetchGreeting outcome = Some data
  <-> exists status,
        outcome = Loader.HttpResponse status (Some data)
        /\ 200 <= status <= 299.
Proof.
  unfold Loader.fetchGreeting, Loader.fetch_try. split.
  - destruct outcome as [|status [d|]]; [done | |].
    + destruct ((200 <=? status) && (status <=? 299)) eqn:E; simpl.
      * intros [= ->]. exists status. split; [done | lia].
      * by destruct (status =? 404).
    + destruct ((200 <=? status) && (status <=? 299)); simpl; [done|].
      by destruct (status =? 404).
  - intros (status & -> & Hs).
    by replace ((200 <=? status) && (status <=? 299)) with true by lia.
Qed.

Lemma fetchGreeting_returns_only_a_parsed_2xx_witness :
  let data := Sample.names "Ann" "Bob" in
  200 <= 200 <= 299
  /\ Loader.fetchGreeting (Loader.HttpResponse 200 (Some data)) = Some data.
Proof.
  intros data.
  assert (H : 200 <= 200 <= 299) by lia.
  split; [exact H|].
  apply (fetchGreeting_returns_only_a_parsed_2xx
           (Loader.HttpResponse 200 (Some data)) data).
  exists 200. by split.
Defined.

Lemma form_shown_of_layout (p q : Loader.Page) :
  layout p = layout q -> Loader.form_shown p = Loader.form_shown q.
Proof.
  unfold layout, Loader.form_shown, Loader.getElementById.
  generalize (Loader.elements p) (Loader.elements q).
  induction l as [|e l IH]; intros [|e' l'] H; try discriminate; [done|].
  simpl in H. injection H as Hid _ Hd Hl. simpl. rewrite Hid.
  destruct (String.eqb (Loader.el_id e') "createForm"); [by rewrite Hd | by apply IH].
Qed.

Lemma frame_switch_day (data : JsObject) (p : Loader.Page) :
  layout (Loader.switch_day data p) = layout p
  /\ Loader.timers (Loader.switch_day data p) = Loader.timers p.
Proof.
  unfold Loader.switch_day.
  destruct (own data (lit "day_index")), (Loader.config p) as [c|]; try done;
    by destruct (Loader.has_day c _ && Loader.populateDayContent_defined p).
Qed.

(** X16.  With an identifier in the URL the loader itself never brings
    the creation form up: whatever the fetch returns, after [init] the
    form is hidden and no timer has been added. *)
Theorem shared_view_keeps_form_hidden
  (loc : Loader.Location) (outcome : Loader.FetchOutcome) (p : Loader.Page)
  (c : N) (id : jsstring) :
  Loader.protocol loc <> lit "file:" ->
  is_Some (Loader.getElementById "createForm" p) ->
  Loader.getUrlParam (lit "id") (Loader.search loc) = Some (c :: id) ->
  Loader.form_shown (Loader.init loc outcome p) = false
  /\ Loader.timers (Loader.init loc outcome p) = Loader.timers p.
Proof.
  intros Hproto Hform Hid. unfold Loader.init.
  destruct (decide (Loader.protocol loc = lit "file:")) as [|_]; [done|].
  rewrite Hid.
  destruct (set_form_display "none" false p Hform) as [_ Ht].
  pose proof (form_shown_set_form "none" false p Hform) as Hhidden.
  fold (Loader.hideCreateForm p) in Ht, Hhidden.
  destruct (Loader.fetchGreeting outcome) as [data|]; [|by split].
  destruct (frame_switch_day data (Loader.populateGreeting data (Loader.hideCreateForm p)))
    as [Hl Htm].
  pose proof (frame_populateGreeting data (Loader.hideCreateForm p)) as Hf.
  unfold frame in Hf. injection Hf as Hl' _ Htm' _.
  split.
  - rewrite (form_shown_of_layout _ _ Hl), (form_shown_of_layout _ _ Hl').
    exact Hhidden.
  - by rewrite Htm, Htm'.
Qed.

Lemma shared_view_keeps_form_hidden_witness :
  let loc := Sample.location [(lit "id", lit "useandom")] in
  let found := Loader.HttpResponse 200 (Some (Sample.names "Ann" "Bob")) in
  (Loader.protocol loc <> lit "file:"
   /\ is_Some (Loader.getElementById "createForm" Sample.page))
  /\ Loader.form_shown (Loader.init loc found Sample.page) = false
  /\ Loader.timers (Loader.init loc found Sample.page) = [].
Proof.
  intros loc found.
  assert (Hp : Loader.protocol loc <> lit "file:") by discriminate.
  assert (Hf : is_Some (Loader.getElementById "createForm" Sample.page))
    by (eexists; reflexivity).
  split; [by split|].
  exact (shared_view_keeps_form_hidden loc found Sample.page _ _ Hp Hf eq_refl).
Defined.

Lemma set_form_keeps_the_form (display : string) (modal : bool) (p : Loader.Page) :
  is_Some (Loader.getElementById "createForm" p) ->
  is_Some (Loader.getElementById "createForm" (Loader.set_form display modal p)).
Proof.
  intros Hform. destruct (set_form_display display modal p Hform) as [Hd _].
  destruct (Loader.getElementById "createForm" (Loader.set_form display modal p));
    [by eexists | discriminate].
Qed.

(** X17.  Of the calls that show and hide the creation form the last one
    decides: shown after hide-then-show with the body marked modal,
    hidden after show-then-hide with the mark removed. *)
Theorem last_of_show_and_hide_decides (p : Loader.Page) :
  is_Some (Loader.getElementById "createForm" p) ->
  (Loader.form_shown (Loader.showCreateForm (Loader.hideCreateForm p)) = true
   /\ Loader.modal_open (Loader.showCreateForm (Loader.hideCreateForm p)) = true)
  /\ (Loader.form_shown (Loader.hideCreateForm (Loader.showCreateForm p)) = false
      /\ Loader.modal_open (Loader.hideCreateForm (Loader.showCreateForm p)) = false).
Proof.
  intros Hform. unfold Loader.showCreateForm, Loader.hideCreateForm.
  pose proof (set_form_keeps_the_form "none" false p Hform) as Hh.
  pose proof (set_form_keeps_the_form "flex" true p Hform) as Hs.
  rewrite !form_shown_set_form by done.
  repeat split; try done.
  - unfold Loader.set_form at 1. by destruct Hh as [e ->].
  - unfold Loader.set_form at 1. by destruct Hs as [e ->].
Qed.

Lemma last_of_show_and_hide_decides_witness :
  is_Some (Loader.getElementById "createForm" Sample.page)
  /\ Loader.form_shown (Loader.showCreateForm (Loader.hideCreateForm Sample.page))
     = true
  /\ Loader.form_shown (Loader.hideCreateForm (Loader.showCreateForm Sample.page))
     = false.
Proof.
  assert (Hf : is_Some (Loader.getElementById "createForm" Sample.page))
    by (eexists; reflexivity).
  split; [exact Hf|].
  destruct (last_of_show_and_hide_decides Sample.page Hf) as [[H1 _] [H2 _]].
  by split.
Defined.

(** ** Trimming *)

Lemma trimStart_splits (s : jsstring) :
  exists ws, s = ws ++ trimStart s /\ starts_clean (trimStart s) = true.
Proof.
  induction s as [|c s (ws & Hs & Hc)]; [by exists [] |]. simpl.
  destruct (is_white_space c) eqn:E.
  - exists (c :: ws). split; [by rewrite <- app_comm_cons, <- Hs | done].
  - exists []. split; [done | by simpl; rewrite E].
Qed.

Lemma starts_clean_prefix (s t : jsstring) :
  starts_clean (s ++ t) = true -> starts_clean s = true.
Proof. by destruct s. Qed.

Lemma trim_has_no_outer_space (s : jsstring) : no_outer_space (trim s) = true.
Proof.
  unfold no_outer_space, trim, trimEnd. rewrite rev_involutive.
  destruct (trimStart_splits s) as (ws & _ & Hstart).
  destruct (trimStart_splits (rev (trimStart s))) as (ws' & Hsplit & Hend).
  rewrite Hend, andb_true_r.
  apply (starts_clean_prefix _ (rev ws')).
  rewrite <- rev_app_distr, <- Hsplit, rev_involutive. exact Hstart.
Qed.

Lemma trim_is_idempotent_aux (s : jsstring) :
  trim (trim s) = trim s /\ no_outer_space (trim s) = true.
Proof.
  split; [apply trim_fixed, trim_has_no_outer_space | apply trim_has_no_outer_space].
Qed.

(** [trim] is idempotent, and what it returns neither starts nor ends
    with white space and is no longer than its argument. *)
Lemma trim_is_idempotent (s : jsstring) :
  trim (trim s) = trim s
  /\ no_outer_space (trim s) = true
  /\ (length (trim s) <= length s)%nat.
Proof.
  split; [apply trim_fixed, trim_has_no_outer_space|].
  split; [apply trim_has_no_outer_space | apply trim_length].
Qed.

(** X18.  The round trip is exact on tidy values: when the sender, the
    receiver and the message of a valid body neither start nor end with
    white space and the drawn identifier is free, get with the returned
    identifier answers 200 with exactly the sender, receiver and message
    that were supplied. *)
Theorem round_trip_is_exact_on_tidy_values
  (amb : Ambient) (req greq : Request) (o : JsObject) (s r m : jsstring) (w : World) :
  method req = "POST"%string ->
  body req = Some o ->
  own o (lit "sender") = JStr s ->
  own o (lit "receiver") = JStr r ->
  own o (lit "message") = JStr m ->
  valid_name (JStr s) = true ->
  valid_name (JStr r) = true ->
  valid_message (JStr m) = true ->
  no_outer_space s = true ->
  no_outer_space r = true ->
  no_outer_space m = true ->
  table w !! drawn_id amb = None ->
  method greq = "GET"%string ->
  query_id greq = JStr (drawn_id amb) ->
  exists d,
    (Get.handler greq (Create.handler amb req w).2).1
    = mkResponse 200 (Some "s-maxage=3600, stale-while-revalidate"%string)
        (Greeting d)
    /\ sender d = s /\ receiver d = r /\ message d = m.
Proof.
  intros Hm Hb Es Er Em Hs Hr Hmsg Ts Tr Tm Hfree Hgm Hgq.
  rewrite <- Es in Hs. rewrite <- Er in Hr. rewrite <- Em in Hmsg.
  destruct (create_submits amb req o w Hm Hb Hs Hr Hmsg) as [Hc ->].
  rewrite (insert_fresh _ _ _ Hc Hfree). cbn [snd].
  rewrite (get_answers greq (drawn_id amb) _ Hgm Hgq (drawn_id_well_formed amb)).
  cbn [fst table]. change (ng_id (submitted amb o)) with (drawn_id amb).
  rewrite lookup_insert_eq. eexists. split; [reflexivity|].
  unfold project, row_of, submitted.
  cbn [sender receiver message row_sender row_receiver row_message
       ng_sender ng_receiver ng_message].
  rewrite Es, Er, Em. cbn [stored_text].
  by rewrite (trim_fixed s Ts), (trim_fixed r Tr), (trim_fixed m Tm).
Qed.

Lemma round_trip_is_exact_on_tidy_values_witness :
  let o := Sample.with_field "message" (JStr (lit "With  love"))
             (Sample.names "Ann Lee" "Bob") in
  let created := Create.handler (Sample.ambient 0) (Sample.post o) Sample.empty_world in
  (no_outer_space (lit "Ann Lee") = true /\ no_outer_space (lit "With  love") = true)
  /\ exists d,
      (Get.handler (Sample.get (JStr (drawn_id (Sample.ambient 0)))) created.2).1
      = mkResponse 200 (Some "s-maxage=3600, stale-while-revalidate"%string)
          (Greeting d)
      /\ sender d = lit "Ann Lee" /\ receiver d = lit "Bob"
      /\ message d = lit "With  love".
Proof.
  intros o created. split; [by split|].
  exact (round_trip_is_exact_on_tidy_values (Sample.ambient 0) (Sample.post o)
           (Sample.get (JStr (drawn_id (Sample.ambient 0)))) o
           (lit "Ann Lee") (lit "Bob") (lit "With  love") Sample.empty_world
           eq_refl eq_refl eq_refl eq_refl eq_refl eq_refl eq_refl eq_refl
           eq_refl eq_refl eq_refl eq_refl eq_refl eq_refl).
Defined.

(** ** The creation form *)

Lemma own_stringify (d : Form.Data) :
  own (Form.stringify d) (lit "sender") = JStr (Form.sender d)
  /\ own (Form.stringify d) (lit "receiver") = JStr (Form.receiver d)
  /\ own (Form.stringify d) (lit "message") = JUndefined
  /\ own (Form.stringify d) (lit "day_index")
     = match Form.day_index d with Some n => JNum n | None => JNull end.
Proof. by repeat split. Qed.

(** X19.  A form whose sender or receiver is blank is not posted: the
    submission ends with the alert, and the world is left as it was. *)
Theorem blank_form_is_not_posted
  (amb : Ambient) (proto host : option jsstring) (f : Form.Fields) (w : World) :
  forallb is_white_space (Form.senderName f) = true
  \/ forallb is_white_space (Form.receiverName f) = true ->
  Form.handleFormSubmit amb proto host f w
  = (Form.Refused "Please enter both sender and receiver names", w).
Proof.
  intros Hblank. unfold Form.handleFormSubmit, Form.collectFormData.
  cbn [Form.sender Form.receiver].
  destruct Hblank as [H | H]; rewrite (trim_blank _ H); [done|].
  by destruct (trim (Form.senderName f)).
Qed.

Lemma blank_form_is_not_posted_witness :
  let f := Form.mkFields (lit "   ") (lit "Bob") None in
  forallb is_white_space (Form.senderName f) = true
  /\ Form.handleFormSubmit (Sample.ambient 0) None (Some (lit "example.org")) f
       Sample.empty_world
     = (Form.Refused "Please enter both sender and receiver names",
        Sample.empty_world).
Proof.
  intros f.
  assert (H : forallb is_white_space (Form.senderName f) = true) by reflexivity.
  split; [exact H|].
  exact (blank_form_is_not_posted (Sample.ambient 0) None (Some (lit "example.org"))
           f Sample.empty_world (or_introl H)).
Defined.

(** X20.  A form submission round-trips: when the trimmed names are
    non-empty and of at most 100 code units, the day value of the form
    reads as the integer [n] (a safe integer, below 2^53 in absolute
    value) and the drawn identifier is free, the submission ends with
    the link of the new greeting, and the row stored under the drawn
    identifier holds the trimmed names of the form, the empty message,
    and the day index [n]. *)
Theorem form_submission_round_trip
  (amb : Ambient) (proto host : option jsstring) (f : Form.Fields) (n : Z)
  (w : World) :
  trim (Form.senderName f) <> [] ->
  trim (Form.receiverName f) <> [] ->
  (length (trim (Form.senderName f)) <= 100)%nat ->
  (length (trim (Form.receiverName f)) <= 100)%nat ->
  Form.day_index (Form.collectFormData f) = Some n ->
  Z.abs n < 2 ^ 53 ->
  table w !! drawn_id amb = None ->
  let req := Http.mkRequest "POST" (Some (Form.stringify (Form.collectFormData f)))
               JUndefined proto host in
  (Form.handleFormSubmit amb proto host f w).1
  = Form.Linked (Create.share_url req (drawn_id amb))
  /\ table (Form.handleFormSubmit amb proto host f w).2 !! drawn_id amb
     = Some (mkRow (drawn_id amb) (trim (Form.senderName f))
               (trim (Form.receiverName f)) [] (Some n) (now amb)).
Proof.
  intros Hs Hr Hsl Hrl Hday _ Hfree req.
  destruct (own_stringify (Form.collectFormData f)) as (Es & Er & Em & Ed).
  rewrite Hday in Ed.
  cbn [Form.collectFormData Form.sender Form.receiver] in Es, Er.
  destruct (create_submits amb req (Form.stringify (Form.collectFormData f)) w
              eq_refl eq_refl) as [Hc Hrun].
  { rewrite Es. unfold valid_name, Create.MAX_NAME_LENGTH.
    destruct (trim (Form.senderName f)); [done | lia]. }
  { rewrite Er. unfold valid_name, Create.MAX_NAME_LENGTH.
    destruct (trim (Form.receiverName f)); [done | lia]. }
  { by rewrite Em. }
  rewrite (insert_fresh _ _ _ Hc Hfree) in Hrun.
  unfold Form.handleFormSubmit.
  change (Form.sender (Form.collectFormData f)) with (trim (Form.senderName f)).
  change (Form.receiver (Form.collectFormData f)) with (trim (Form.receiverName f)).
  destruct (trim (Form.senderName f)) as [|c s] eqn:Hts; [done|].
  destruct (trim (Form.receiverName f)) as [|c' r] eqn:Htr; [done|].
  change (Http.mkRequest "POST" (Some (Form.stringify (Form.collectFormData f)))
            JUndefined proto host) with req.
  rewrite Hrun.
  cbv beta iota delta [Form.createGreeting respond Http.status Http.payload].
  change ((200 <=? 201) && (201 <=? 299)) with true. cbv beta iota delta [negb].
  split; [reflexivity|].
  cbn [snd table].
  change (ng_id (submitted amb (Form.stringify (Form.collectFormData f))))
    with (drawn_id amb).
  rewrite lookup_insert_eq. f_equal.
  unfold row_of, submitted. cbn [ng_id ng_sender ng_receiver ng_message ng_day_index].
  rewrite Es, Er, Em, Ed. cbn [stored_text].
  rewrite <- Hts, <- Htr.
  rewrite (proj1 (trim_is_idempotent_aux (Form.senderName f))),
    (proj1 (trim_is_idempotent_aux (Form.receiverName f))).
  f_equal. cbn [Create.day_index_or_zero]. apply parseInt_number.
Qed.

Lemma form_submission_round_trip_witness :
  let f := Form.mkFields (lit "  Ann ") (lit "Bob") (Some (lit "3")) in
  let done := Form.handleFormSubmit (Sample.ambient 0) None
                (Some (lit "example.org")) f Sample.empty_world in
  (trim (Form.senderName f) <> [] /\ trim (Form.receiverName f) <> []
   /\ Form.day_index (Form.collectFormData f) = Some 3 /\ Z.abs 3 < 2 ^ 53
   /\ table Sample.empty_world !! drawn_id (Sample.ambient 0) = None)
  /\ done.1 = Form.Linked (lit "https://example.org/?id=useandom")
  /\ table done.2 !! lit "useandom"
     = Some (mkRow (lit "useandom") (lit "Ann") (lit "Bob") [] (Some 3) 1700000000).
Proof.
  intros f done.
  assert (Hs : trim (Form.senderName f) <> []) by discriminate.
  assert (Hr : trim (Form.receiverName f) <> []) by discriminate.
  assert (Hn : Z.abs 3 < 2 ^ 53) by reflexivity.
  split; [by repeat split|].
  destruct (form_submission_round_trip (Sample.ambient 0) None
              (Some (lit "example.org")) f 3 Sample.empty_world Hs Hr)
    as [Hlink Hrow]; [simpl; lia | simpl; lia | reflexivity | exact Hn | reflexivity |].
  split; [exact Hlink | exact Hrow].
Defined.

(** ** The demo server *)




(** X22.  The demo server stores the names as they are sent, without
    trimming and without a bound: for a body with a truthy sender and
    receiver, create answers 201 and get with the returned identifier
    answers 200 with exactly those two values. *)
Theorem demo_round_trip_is_verbatim
  (amb : Ambient) (req greq : Demo.Request) (db : gmap jsstring Demo.Greeting) :
  truthy (own (Demo.body req) (lit "sender")) = true ->
  truthy (own (Demo.body req) (lit "receiver")) = true ->
  Demo.query_id greq = JStr (drawn_id amb) ->
  exists url g,
    (Demo.create amb req db).1 = Demo.mkResponse 201 (Demo.Created (drawn_id amb) url)
    /\ Demo.get greq (Demo.create amb req db).2 = Demo.mkResponse 200 (Demo.Found g)
    /\ Demo.sender g = own (Demo.body req) (lit "sender")
    /\ Demo.receiver g = own (Demo.body req) (lit "receiver").
Proof.
  intros Hs Hr Hq. unfold Demo.create, Demo.get. rewrite Hs, Hr, Hq.
  cbn [negb orb fst snd].
  assert (truthy (JStr (drawn_id amb)) = true) as ->.
  { pose proof (nanoid_length (pool amb) Create.ID_LENGTH) as Hl.
    unfold drawn_id. by destruct (Nanoid.nanoid _ _). }
  cbn [negb]. unfold drawn_id, Create.ID_LENGTH. rewrite lookup_insert_eq.
  eexists _, _. by repeat split.
Qed.

Lemma demo_round_trip_is_verbatim_witness :
  let req := Demo.mkRequest (Sample.names " Ann " "Bob") JUndefined (lit "http")
               (Some (lit "localhost:3000")) in
  let greq := Demo.mkRequest [] (JStr (drawn_id (Sample.ambient 0))) (lit "http")
                (Some (lit "localhost:3000")) in
  exists g,
    Demo.get greq (Demo.create (Sample.ambient 0) req ∅).2
    = Demo.mkResponse 200 (Demo.Found g)
    /\ Demo.sender g = JStr (lit " Ann ").
Proof.
  intros req greq.
  destruct (demo_round_trip_is_verbatim (Sample.ambient 0) req greq ∅
              eq_refl eq_refl eq_refl) as (url & g & _ & Hg & Hs & _).
  exists g. split; [exact Hg | exact Hs].
Defined.

(** X23.  The demo server has no primary key: when the drawn identifier
    is already a key, create still answers 201 and the greeting that was
    there is replaced; every other greeting is kept. *)
Theorem demo_collision_overwrites
  (amb : Ambient) (req : Demo.Request) (db : gmap jsstring Demo.Greeting)
  (old : Demo.Greeting) :
  truthy (own (Demo.body req) (lit "sender")) = true ->
  truthy (own (Demo.body req) (lit "receiver")) = true ->
  db !! drawn_id amb = Some old ->
  Demo.status (Demo.create amb req db).1 = 201
  /\ (exists g, (Demo.create amb req db).2 !! drawn_id amb = Some g
                /\ Demo.sender g = own (Demo.body req) (lit "sender")
                /\ Demo.created_at g = now amb)
  /\ (forall id, id <> drawn_id amb ->
                 (Demo.create amb req db).2 !! id = db !! id)
  /\ size (Demo.create amb req db).2 = size db.
Proof.
  intros Hs Hr Hold. unfold Demo.create. rewrite Hs, Hr. cbn [negb orb fst snd].
  fold (drawn_id amb). change (Nanoid.nanoid (pool amb) 8) with (drawn_id amb).
  split; [reflexivity|]. split; [|split].
  - rewrite lookup_insert_eq. eexists. by repeat split.
  - intros id Hne. by rewrite lookup_insert_ne.
  - apply map_size_insert_Some. by eexists.
Qed.

Lemma demo_collision_overwrites_witness :
  let first := Demo.mkRequest (Sample.names "Ann" "Bob") JUndefined (lit "http")
                 (Some (lit "localhost:3000")) in
  let second := Demo.mkRequest (Sample.names "Cleo" "Dan") JUndefined (lit "http")
                  (Some (lit "localhost:3000")) in
  let db := (Demo.create (Sample.ambient 0) first ∅).2 in
  is_Some (db !! drawn_id (Sample.ambient 0))
  /\ Demo.status (Demo.create (Sample.ambient 0) second db).1 = 201
  /\ size (Demo.create (Sample.ambient 0) second db).2 = size db.
Proof.
  intros first second db.
  split; [eexists; reflexivity|].
  destruct (demo_collision_overwrites (Sample.ambient 0) second db
              (Demo.mkGreeting (JStr (lit "Ann")) (JStr (lit "Bob")) (Some 0)
                 (JStr []) (JStr []) (JStr []) [] 1700000000)
              eq_refl eq_refl eq_refl) as (Hst & _ & _ & Hsize).
  split; [exact Hst | exact Hsize].
Defined.

(** X24.  The demo server stores day index 0 when the body has none (or
    a falsy one), and the number itself when the body has a number (a
    safe integer). *)
Theorem demo_day_index_defaults_to_zero
  (amb : Ambient) (req : Demo.Request) (db : gmap jsstring Demo.Greeting) :
  truthy (own (Demo.body req) (lit "sender")) = true ->
  truthy (own (Demo.body req) (lit "receiver")) = true ->
  exists g,
    (Demo.create amb req db).2 !! drawn_id amb = Some g
    /\ (truthy (own (Demo.body req) (lit "day_index")) = false ->
        Demo.day_index g = Some 0)
    /\ (forall n, own (Demo.body req) (lit "day_index") = JNum n ->
                  Z.abs n < 2 ^ 53 -> Demo.day_index g = Some n).
Proof.
  intros Hs Hr. unfold Demo.create. rewrite Hs, Hr. cbn [negb orb snd].
  change (Nanoid.nanoid (pool amb) 8) with (drawn_id amb).
  rewrite lookup_insert_eq. eexists. split; [reflexivity|].
  cbn [Demo.day_index]. unfold or_else. split.
  - by intros ->.
  - intros n -> _. cbn [truthy].
    destruct (n =? 0) eqn:E; cbn [negb]; [|apply parseInt10_number].
    apply Z.eqb_eq in E as ->. reflexivity.
Qed.

Lemma demo_day_index_defaults_to_zero_witness :
  let bare := Demo.mkRequest (Sample.names "Ann" "Bob") JUndefined (lit "http") None in
  let dated := Demo.mkRequest
                 (Sample.with_field "day_index" (JNum 4) (Sample.names "Ann" "Bob"))
                 JUndefined (lit "http") None in
  (exists g, (Demo.create (Sample.ambient 0) bare ∅).2 !! drawn_id (Sample.ambient 0)
             = Some g /\ Demo.day_index g = Some 0)
  /\ (exists g, (Demo.create (Sample.ambient 0) dated ∅).2 !! drawn_id (Sample.ambient 0)
                = Some g /\ Demo.day_index g = Some 4).
Proof.
  intros bare dated. split.
  - destruct (demo_day_index_defaults_to_zero (Sample.ambient 0) bare ∅
                eq_refl eq_refl) as (g & Hg & H0 & _).
    exists g. split; [exact Hg | exact (H0 eq_refl)].
  - destruct (demo_day_index_defaults_to_zero (Sample.ambient 0) dated ∅
                eq_refl eq_refl) as (g & Hg & _ & Hn).
    exists g. split; [exact Hg | exact (Hn 4 eq_refl eq_refl)].
Defined.

(** ** Defaults *)

(** X25.  After an accepted create, get with the returned identifier
    answers 200; the message it returns is the empty string when the
    body had no message, and the day_index it returns is 0 when the body
    had no day_index. *)
Theorem absent_fields_get_defaults
  (amb : Ambient) (req greq : Request) (w : World) (id url : jsstring) :
  (Create.handler amb req w).1 = respond 201 (Created id url) ->
  method greq = "GET"%string ->
  query_id greq = JStr id ->
  exists o d,
    body req = Some o
    /\ (Get.handler greq (Create.handler amb req w).2).1
       = mkResponse 200 (Some "s-maxage=3600, stale-while-revalidate"%string)
           (Greeting d)
    /\ (own o (lit "message") = JUndefined -> message d = [])
    /\ (own o (lit "day_index") = JUndefined -> day_index d = Some 0).
Proof.
  intros Hc Hgm Hgq.
  destruct (create_201_inv amb req w) as (o & _ & Hb & _ & _ & _ & E);
    [by rewrite Hc|].
  rewrite E in Hc |- *. injection Hc as <- _. cbn [snd].
  rewrite (get_answers greq (drawn_id amb) _ Hgm Hgq (drawn_id_well_formed amb)).
  cbn [fst table]. rewrite lookup_insert_eq.
  exists o. eexists. split; [exact Hb|]. split; [reflexivity|].
  simpl. split.
  - by intros ->.
  - by intros ->.
Qed.

Lemma absent_fields_get_defaults_witness :
  let req := Sample.post (Sample.names "Ann" "Bob") in
  let created := Create.handler (Sample.ambient 0) req Sample.empty_world in
  created.1 = respond 201 (Created (lit "useandom")
                             (lit "https://example.org/?id=useandom"))
  /\ exists d,
      (Get.handler (Sample.get (JStr (lit "useandom"))) created.2).1
      = mkResponse 200 (Some "s-maxage=3600, stale-while-revalidate"%string)
          (Greeting d)
      /\ message d = [] /\ day_index d = Some 0.
Proof.
  intros req created.
  assert (Hc : created.1 = respond 201 (Created (lit "useandom")
                                          (lit "https://example.org/?id=useandom")))
    by reflexivity.
  split; [exact Hc|].
  destruct (absent_fields_get_defaults (Sample.ambient 0) req
              (Sample.get (JStr (lit "useandom"))) Sample.empty_world _ _ Hc
              eq_refl eq_refl) as (o & d & Hb & Hd & Hm & Hi).
  injection Hb as <-. exists d. repeat split; [exact Hd | by apply Hm | by apply Hi].
Defined.
